(** * Ransomware detection service: behavioural scorer and fusion engine

    A shallow embedding of [src/behav_model.py] ([_compute_behav_score],
    [predict_behav]) and of the fusion part of [src/app.py]
    ([risk_band_from_prob], [combine_model_outputs]).

    Python floats are IEEE 754 binary64 numbers, and so are Rocq's primitive
    floats: scores, thresholds and weights are computed here with the very
    operations the interpreter uses.  Exceptions are values of [exn] carried
    by the [result] monad; [try ... except Exception] is a [match] on it. *)

From Stdlib Require Import ZArith List Floats String Ascii Lia Bool.
From stdpp Require Import base option list gmap strings.

Set Warnings "-inexact-float".
Local Open Scope string_scope.
Local Open Scope list_scope.
Local Open Scope Z_scope.

(** ** Exceptions and the error monad *)

Inductive exn : Type :=
  | ValueError
  | TypeError
  | OverflowError
  | ZeroDivisionError
  | RuntimeError (msg : string)
  | OtherError (msg : string).

Inductive result (A : Type) : Type :=
  | Ok (a : A)
  | Err (e : exn).
Arguments Ok {A} a.
Arguments Err {A} e.

#[export] Instance result_ret : MRet result := fun _ a => Ok a.
#[export] Instance result_bind : MBind result := fun _ _ f m =>
  match m with
  | Ok a => f a
  | Err e => Err e
  end.
#[export] Instance result_fmap : FMap result := fun _ _ f m =>
  match m with
  | Ok a => Ok (f a)
  | Err e => Err e
  end.

Definition is_ok {A} (m : result A) : bool :=
  match m with Ok _ => true | Err _ => false end.

(** ** Python values held by a cell of a data frame *)

Inductive value : Type :=
  | VNone
  | VBool (b : bool)
  | VInt (z : Z)
  | VFloat (f : float)
  | VStr (s : string).

(** [bool(v)]: [None], [False], zero and the empty string are falsy; NaN is
    truthy, since it differs from zero. *)
Definition truthy (v : value) : bool :=
  match v with
  | VNone => false
  | VBool b => b
  | VInt z => negb (Z.eqb z 0)
  | VFloat f => negb (f =? 0)%float
  | VStr s => negb (String.eqb s "")
  end.

(** [a or b] with [b] already evaluated. *)
Definition py_or (a b : value) : value :=
  if truthy a then a else b.

(** [a or <rhs>] where the right operand is only evaluated, and may only
    raise, when [a] is falsy. *)
Definition py_or_lazy (a : value) (rhs : result value) : result value :=
  if truthy a then Ok a else rhs.

(** *** [float(x)] *)

(** An integer rounded to the nearest binary64 number, ties to even. *)
Definition float_of_Z (z : Z) : float :=
  SF2Prim (binary_normalize prec emax z 0 false).

Module FloatLiteral.
(** The ASCII text accepted by [float(str)]: surrounding white space, a
    sign, then [inf], [infinity], [nan] in any case, or a decimal number
    with an optional exponent; single underscores may separate digits.
    Text with a character beyond ASCII is read through the interpreter's
    Unicode tables (other white space, other decimal digits), which this
    reading leaves out: what is stated of the outcome on text is stated of
    ASCII text. *)

(** The white space [float] strips from ASCII text: tab, line feed,
    vertical tab, form feed, carriage return and space. *)
Definition is_space (c : ascii) : bool :=
  let n := N_of_ascii c in
  ((9 <=? n) && (n <=? 13) || (n =? 32))%N.

Definition is_digit (c : ascii) : bool :=
  let n := N_of_ascii c in ((48 <=? n) && (n <=? 57))%N.

Definition digit_val (c : ascii) : Z := Z.of_N (N_of_ascii c) - 48.

Definition lower (c : ascii) : ascii :=
  let n := N_of_ascii c in
  if ((65 <=? n) && (n <=? 90))%N then ascii_of_N (n + 32) else c.

Fixpoint drop_space (l : list ascii) : list ascii :=
  match l with
  | c :: l' => if is_space c then drop_space l' else l
  | [] => []
  end.

Definition strip (s : list ascii) : list ascii :=
  rev (drop_space (rev (drop_space s))).

(** [digitpart ::= digit (["_"] digit)*]: the digits read, most
    significant first, and the text left. *)
Fixpoint digitpart (s : list ascii) : list Z * list ascii :=
  match s with
  | c :: s' =>
      if is_digit c then
        match s' with
        | "_"%char :: (d :: _) as s'' =>
            if is_digit d
            then let '(ds, r) := digitpart s'' in (digit_val c :: ds, r)
            else ([digit_val c], s')
        | _ => let '(ds, r) := digitpart s' in (digit_val c :: ds, r)
        end
      else ([], s)
  | [] => ([], [])
  end.

Definition Z_of_digits (ds : list Z) : Z :=
  fold_left (fun acc d => 10 * acc + d) ds 0.

Definition sign (s : list ascii) : bool * list ascii :=
  match s with
  | "-"%char :: r => (true, r)
  | "+"%char :: r => (false, r)
  | _ => (false, s)
  end.

(** [exponent ::= ("e" | "E") [sign] digitpart], or nothing. *)
Definition exponent (s : list ascii) : option (Z * list ascii) :=
  match s with
  | c :: r =>
      if Ascii.eqb (lower c) "e"%char then
        let '(neg, r) := sign r in
        match digitpart r with
        | ([], _) => None
        | (ds, r) => Some (if neg then - Z_of_digits ds else Z_of_digits ds, r)
        end
      else Some (0, s)
  | [] => Some (0, [])
  end.

(** The decimal number [m * 10^e] rounded to the nearest binary64 number,
    ties to even, as the interpreter's correctly rounded conversion. *)
Definition decimal (neg : bool) (m e : Z) : spec_float :=
  match m with
  | Zpos p =>
      if 0 <=? e
      then binary_normalize prec emax (if neg then - (m * 10 ^ e) else m * 10 ^ e) 0 false
      else SFdiv prec emax (S754_finite neg p 0)
                           (S754_finite false (Z.to_pos (10 ^ (- e))) 0)
  | _ => S754_zero neg
  end.

(** [number ::= [digitpart] "." digitpart | digitpart ["."]], then the
    exponent, then the end of the text. *)
Definition number (neg : bool) (s : list ascii) : option spec_float :=
  let '(ip, r) := digitpart s in
  let '(fp, r) :=
    match r with
    | "."%char :: r' => digitpart r'
    | _ => ([], r)
    end in
  match ip, fp with
  | [], [] => None
  | _, _ =>
      match exponent r with
      | Some (e, []) =>
          Some (decimal neg (Z_of_digits (ip ++ fp)) (e - Z.of_nat (length fp)))
      | _ => None
      end
  end.

Definition parse (s : string) : option float :=
  let '(neg, r) := sign (strip (list_ascii_of_string s)) in
  let w := string_of_list_ascii (map lower r) in
  if String.eqb w "inf" || String.eqb w "infinity"
  then Some (if neg then neg_infinity else infinity)
  else if String.eqb w "nan" then Some nan
  else SF2Prim <$> number neg r.
End FloatLiteral.

(** [float(v)].  [float(None)] is a [TypeError], text that is not a number a
    [ValueError], an integer beyond the largest float an [OverflowError]. *)
Definition py_float (v : value) : result float :=
  match v with
  | VNone => Err TypeError
  | VBool b => Ok (if b then 1 else 0)%float
  | VInt z =>
      let f := float_of_Z z in
      if is_infinity f then Err OverflowError else Ok f
  | VFloat f => Ok f
  | VStr s =>
      match FloatLiteral.parse s with
      | Some f => Ok f
      | None => Err ValueError
      end
  end.

(** [x / y] on floats raises on a zero divisor. *)
Definition py_truediv (x y : float) : result float :=
  if (y =? 0)%float then Err ZeroDivisionError else Ok (x / y)%float.

(** Two-argument [min] and [max]: the first argument is kept unless the
    second is strictly smaller (resp. larger). *)
Definition py_min (a b : float) : float := if (b <? a)%float then b else a.
Definition py_max (a b : float) : float := if (a <? b)%float then b else a.

(** ** Data frames *)

(** An index label: [read_csv] numbers the rows from 0, but a frame may carry
    any labels (a sliced or filtered frame keeps those of its source, an
    index column gives text). *)
Inductive label : Type :=
  | LInt (z : Z)
  | LStr (s : string).

(** [idx == 0]. *)
Definition label_is_zero (idx : label) : bool :=
  match idx with
  | LInt z => Z.eqb z 0
  | LStr _ => false
  end.

(** A row as [iterrows] yields it: a series indexed by the (distinct) column
    names. *)
Abbreviation Series := (gmap string value).

Record DataFrame : Type := {
  columns : list string;
  rows : list (label * list value)
}.

(** The row of cells [vals] under the labels [cols].  The labels of a frame
    are taken to be distinct, as [read_csv] makes them; under a repeated
    label the first cell is kept. *)
Definition series_of (cols : list string) (vals : list value) : Series :=
  list_to_map (zip cols vals).

Definition iterrows (df : DataFrame) : list (label * Series) :=
  (fun '(idx, vals) => (idx, series_of (columns df) vals)) <$> rows df.

(** [df.empty]: some axis has length 0. *)
Definition empty (df : DataFrame) : bool :=
  match columns df, rows df with
  | [], _ | _, [] => true
  | _, _ => false
  end.

(** The default index of a frame of [n] rows: [0, 1, ..., n-1]. *)
Definition range_index (n : nat) : list label :=
  (fun i => LInt (Z.of_nat i)) <$> seq 0 n.

(** [row.get(key, default)]. *)
Definition get (row : Series) (key : string) (default : value) : value :=
  match row !! key with
  | Some v => v
  | None => default
  end.

(** What every scorer returns: [(probs, preds, threshold_used, reasons_list)]. *)
Record ScoreResult : Type := {
  probs : list float;
  preds : list Z;
  threshold_used : float;
  reasons_list : list string
}.

(** ** src/behav_model.py *)

Definition BEHAV_THRESHOLD : float := 0.6%float.

Definition REASON_FILE : string :=
  "Unusually high proportion of file-creation events, consistent with mass file modification or encryption behaviour.".
Definition REASON_NET : string :=
  "Network connection events detected, suggesting potential propagation or command-and-control communication.".
Definition REASON_PROC : string :=
  "Multiple process creation events observed, which may indicate process spawning or code injection behaviour.".
Definition REASON_NORMAL : string :=
  "Behavioural activity appears within normal ranges typically observed in benign software.".
Definition REASON_NO_EVENTS : string :=
  "No behavioural events available for analysis.".

(** The seven numbers read off a row by the first lines of
    [_compute_behav_score]. *)
Record Features : Type := {
  total : float;
  n_proc : float;
  n_file : float;
  n_net : float;
  ratio_proc : float;
  ratio_file : float;
  ratio_net : float
}.

(** [float(row.get(key, 0) or 0)] *)
Definition count_field (row : Series) (key : string) : result float :=
  py_float (py_or (get row key (VInt 0)) (VInt 0)).

(** [float(row.get(key, 0) or (n / total if total > 0 else 0))] *)
Definition ratio_field (row : Series) (key : string) (n total : float)
  : result float :=
  v ← py_or_lazy (get row key (VInt 0))
        (if (0 <? total)%float then VFloat <$> py_truediv n total
         else Ok (VInt 0));
  py_float v.

Definition read_features (row : Series) : result Features :=
  total ← count_field row "total_events";
  n_proc ← count_field row "n_proc_create";
  n_file ← count_field row "n_file_create";
  n_net ← count_field row "n_net_conn";
  ratio_proc ← ratio_field row "ratio_proc_create" n_proc total;
  ratio_file ← ratio_field row "ratio_file_create" n_file total;
  ratio_net ← ratio_field row "ratio_net_conn" n_net total;
  mret {| total := total; n_proc := n_proc; n_file := n_file; n_net := n_net;
          ratio_proc := ratio_proc; ratio_file := ratio_file;
          ratio_net := ratio_net |}.

(** The three rule conditions. *)
Definition file_rule (ft : Features) : bool :=
  ((1000 <? n_file ft) || (0.5 <? ratio_file ft))%float.
Definition net_rule (ft : Features) : bool :=
  ((5 <? n_net ft) || (0.02 <? ratio_net ft))%float.
Definition proc_rule (ft : Features) : bool :=
  ((10 <? n_proc ft) || (0.02 <? ratio_proc ft))%float.

(** [if cond: score += w; reasons.append(r)] *)
Definition apply_rule (cond : bool) (w : float) (r : string)
    (st : float * list string) : float * list string :=
  if cond then ((st.1 + w)%float, st.2 ++ [r]) else st.

(** The rules, the clamp and the default reason. *)
Definition score_features (ft : Features) : float * list string :=
  let st := (0.0%float, []) in
  let st := apply_rule (file_rule ft) 0.6%float REASON_FILE st in
  let st := apply_rule (net_rule ft) 0.2%float REASON_NET st in
  let st := apply_rule (proc_rule ft) 0.2%float REASON_PROC st in
  let score := py_max 0.0%float (py_min st.1 1.0%float) in
  let reasons :=
    match st.2 with
    | [] => [REASON_NORMAL]
    | _ => st.2
    end in
  (score, reasons).

Definition _compute_behav_score (row : Series) : result (float * list string) :=
  ft ← read_features row;
  mret (score_features ft).

(** The result for a missing or empty frame. *)
Definition no_events_result : ScoreResult :=
  {| probs := [0.0%float]; preds := [0]; threshold_used := BEHAV_THRESHOLD;
     reasons_list := [REASON_NO_EVENTS] |}.

(** The loop over [df.iterrows()], with its two variables. *)
Fixpoint score_rows (its : list (label * Series))
    (probs_list : list float) (reasons_for_first : list string)
  : result (list float * list string) :=
  match its with
  | [] => Ok (probs_list, reasons_for_first)
  | (idx, row) :: its' =>
      sr ← _compute_behav_score row;
      score_rows its' (probs_list ++ [sr.1])
        (if label_is_zero idx then sr.2 else reasons_for_first)
  end.

(** [(probs >= BEHAV_THRESHOLD).astype(int)] *)
Definition threshold_preds (thr : float) (ps : list float) : list Z :=
  (fun p => if (thr <=? p)%float then 1 else 0) <$> ps.

Definition predict_behav (df : option DataFrame) : result ScoreResult :=
  match df with
  | None => Ok no_events_result
  | Some d =>
      if empty d then Ok no_events_result
      else
        st ← score_rows (iterrows d) [] [];
        mret {| probs := st.1;
                preds := threshold_preds BEHAV_THRESHOLD st.1;
                threshold_used := BEHAV_THRESHOLD;
                reasons_list := st.2 |}
  end.

(** ** src/app.py: model fusion *)

Definition FUSION_WEIGHTS : float * float := (0.6, 0.4)%float.
Definition FUSION_THRESHOLD : float := 0.50%float.

Definition risk_band_from_prob (p : float) : string :=
  if (p <? 0.30)%float then "Safe"
  else if (p <=? 0.70)%float then "Caution"
  else "High Risk".

(** ["Malicious" if final_prob >= FUSION_THRESHOLD else "Safe"] *)
Definition verdict_of (final_prob : float) : string :=
  if (FUSION_THRESHOLD <=? final_prob)%float then "Malicious" else "Safe".

(** The loop that builds [reasons] from [final_reasons]: a reason not yet in
    [seen] is recorded, and the loop breaks once three are kept. *)
Fixpoint soft_reasons (final_reasons : list string) (seen : gset string)
    (reasons : list string) : list string :=
  match final_reasons with
  | [] => reasons
  | r :: rest =>
      let '(seen, reasons) :=
        if decide (r ∈ seen) then (seen, reasons)
        else ({[ r ]} ∪ seen, reasons ++ [r]) in
      if (length reasons =? 3)%nat then reasons
      else soft_reasons rest seen reasons
  end.

(** One entry of [debug_info] for a scorer that answered. *)
Record Component : Type := {
  threshold : float;
  mean_probability : float
}.

(** The [debug_info] dictionary; a key that may be absent is an [option].
    The two [_error] keys hold the exception whose text the code stores. *)
Record DebugInfo : Type := {
  behavioral : option Component;
  behavioral_error : option exn;
  static : option Component;
  static_error : option exn;
  risk_band : string;
  reasons : list string
}.

(** The weighted blend and the single-model fallbacks of the fusion logic. *)
Definition fuse_probs (static_prob behav_prob : option float) : result float :=
  match static_prob, behav_prob with
  | Some s, Some b => Ok (FUSION_WEIGHTS.1 * s + FUSION_WEIGHTS.2 * b)%float
  | Some s, None => Ok s
  | None, Some b => Ok b
  | None, None => Err (RuntimeError "Both models failed.")
  end.

Section Fusion.
(** The static scorer wraps a classifier loaded from disk, and the mean of
    an array is numpy's: both are taken as given. *)
Variable predict_static : DataFrame -> result ScoreResult.
Variable mean : list float -> float.

(** The state after one [try] block: the scorer's mean probability, the
    reasons gathered so far, and what went into [debug_info]. *)
Definition try_scorer (r : result ScoreResult) (final_reasons : list string)
  : option float * list string * option Component * option exn :=
  match r with
  | Ok sr =>
      let prob := mean (probs sr) in
      (Some prob, final_reasons ++ reasons_list sr,
       Some {| threshold := threshold_used sr; mean_probability := prob |},
       None)
  | Err e => (None, final_reasons, None, Some e)
  end.

Definition combine_model_outputs (df : DataFrame)
  : result (float * string * DebugInfo) :=
  let final_reasons := [] in
  let '(behav_prob, final_reasons, b_info, b_err) :=
    try_scorer (predict_behav (Some df)) final_reasons in
  let '(static_prob, final_reasons, s_info, s_err) :=
    try_scorer (predict_static df) final_reasons in
  final_prob ← fuse_probs static_prob behav_prob;
  let verdict := verdict_of final_prob in
  let band := risk_band_from_prob final_prob in
  let reasons := soft_reasons final_reasons ∅ [] in
  mret (final_prob, verdict,
        {| behavioral := b_info; behavioral_error := b_err;
           static := s_info; static_error := s_err;
           risk_band := band; reasons := reasons |}).
End Fusion.

(** ** The specification's wording, for comparison with the code *)

(** [clamp(x, lo, hi)] *)
Definition clamp (x lo hi : float) : float :=
  if (x <? lo)%float then lo else if (hi <? x)%float then hi else x.

(** The weight a rule contributes: its weight when triggered, nothing
    otherwise. *)
Definition triggered (cond : bool) (w : float) : float :=
  if cond then w else 0%float.

(** "clamp(sum of triggered weights, 0.0, 1.0)", with the table of rules. *)
Definition rule_score (ft : Features) : float :=
  clamp (triggered ((1000 <? n_file ft) || (0.5 <? ratio_file ft)) 0.6
         + triggered ((5 <? n_net ft) || (0.02 <? ratio_net ft)) 0.2
         + triggered ((10 <? n_proc ft) || (0.02 <? ratio_proc ft)) 0.2)%float
        0 1.


(** "deduplicate by exact string equality while preserving first-seen
    order": each string stays where it first occurs, later copies go. *)
Fixpoint dedup_first (l : list string) : list string :=
  match l with
  | [] => []
  | x :: l' => x :: filter (fun y => y <> x) (dedup_first l')
  end.

(** The reasons a scorer contributes: its list, or nothing when it failed. *)
Definition reasons_of (r : result ScoreResult) : list string :=
  match r with
  | Ok sr => reasons_list sr
  | Err _ => []
  end.

(** The mean probability a scorer contributes, when it answered. *)
Definition mean_of (mean : list float -> float) (r : result ScoreResult)
  : option float :=
  match r with
  | Ok sr => Some (mean (probs sr))
  | Err _ => None
  end.

(** The seven columns the behavioural scorer reads. *)
Definition behav_keys : list string :=
  ["total_events"; "n_proc_create"; "n_file_create"; "n_net_conn";
   "ratio_proc_create"; "ratio_file_create"; "ratio_net_conn"].

(** Text without a character beyond ASCII. *)
Definition is_ascii (s : string) : bool :=
  forallb (fun c => (N_of_ascii c <? 128)%N) (list_ascii_of_string s).

(** A cell [float] accepts once [or] has replaced a falsy one by 0: [None],
    a boolean, a float, an integer within the range of floats, empty text
    or the ASCII text of a number. *)
Definition coercible (v : value) : bool :=
  match v with
  | VInt z => negb (is_infinity (float_of_Z z))
  | VStr s =>
      String.eqb s ""
      || is_ascii s && bool_decide (is_Some (FloatLiteral.parse s))
  | _ => true
  end.

Definition row_coercible (row : Series) : bool :=
  forallb (fun key => coercible (get row key (VInt 0))) behav_keys.

Definition frame_coercible (df : DataFrame) : bool :=
  forallb (fun it => row_coercible it.2) (iterrows df).

(** The first component of what fusion returns. *)
Definition final_prob_of {A B} (r : result (float * A * B)) : result float :=
  (fun out => out.1.1) <$> r.

(** ** Sample inputs *)

Module Samples.
(** Two rows under the default index: one with heavy file activity, one
    with no events at all but many processes and connections. *)
Definition two_rows : DataFrame :=
  {| columns := ["sample_id"; "total_events"; "n_proc_create";
                 "n_file_create"; "n_net_conn"];
     rows := [(LInt 0, [VStr "run_1"; VInt 100; VInt 3; VInt 80; VInt 0]);
              (LInt 1, [VStr "run_2"; VInt 0; VInt 30; VInt 80; VInt 9])] |}.

(** A header with no columns, or no data row: an empty frame. *)
Definition no_rows : DataFrame :=
  {| columns := ["total_events"; "n_file_create"]; rows := [] |}.

(** A table whose data lines have one field more than its header:
    [read_csv] takes the first field of each line as the index, here 7
    and 8. *)
Definition shifted_index : DataFrame :=
  {| columns := ["total_events"; "n_file_create"];
     rows := [(LInt 7, [VInt 100; VInt 2000]);
              (LInt 8, [VInt 100; VInt 5])] |}.

(** The same rows with the label 0 on the second one. *)
Definition zero_label_last : DataFrame :=
  {| columns := ["total_events"; "n_file_create"];
     rows := [(LInt 1, [VInt 100; VInt 2000]);
              (LInt 0, [VInt 100; VInt 5])] |}.

(** A cell holding text that is not a number. *)
Definition text_cell : DataFrame :=
  {| columns := ["total_events"; "n_file_create"];
     rows := [(LInt 0, [VStr "abc"; VInt 5])] |}.

(** No events recorded, counts present, no ratio column. *)
Definition idle_row : Series :=
  series_of ["total_events"; "n_proc_create"; "n_file_create"; "n_net_conn"]
            [VInt 0; VInt 7; VInt 5000; VInt 9].

(** One row triggering the process rule only: score 0.2. *)
Definition proc_only : DataFrame :=
  {| columns := ["total_events"; "n_proc_create"];
     rows := [(LInt 0, [VInt 0; VInt 30])] |}.

(** A static scorer that answers 0.8 with three reasons, one that answers
    0.9 on a frame of one row, and one whose model file is missing. *)
Definition static_08 (df : DataFrame) : result ScoreResult :=
  Ok {| probs := [0.8%float]; preds := [1]; threshold_used := 0.5;
        reasons_list := ["B"; "C"; "D"] |}.
Definition static_down (df : DataFrame) : result ScoreResult :=
  Err (OtherError "model file not found").

(** The mean of an array, summed from the left. *)
Definition mean_left (l : list float) : float :=
  (fold_left PrimFloat.add l 0 / float_of_Z (Z.of_nat (length l)))%float.
End Samples.

(** ** Further reference definitions *)

(** The reasons a set of fired rules gives: one sentence per rule, in the
    order file, network, process, or the normal-range sentence. *)
Definition reasons_for (file net proc : bool) : list string :=
  match (if file then [REASON_FILE] else [])
        ++ (if net then [REASON_NET] else [])
        ++ (if proc then [REASON_PROC] else []) with
  | [] => [REASON_NORMAL]
  | l => l
  end.

(** The rank of a band, from the mildest to the gravest. *)
Definition band_rank (band : string) : nat :=
  if String.eqb band "Safe" then 0
  else if String.eqb band "Caution" then 1
  else 2.

(** ** Further sample inputs *)

Module MoreSamples.
(** Ten file creations among a hundred events, with a ratio column that
    says 0.9. *)
Definition inflated_ratio : Series :=
  series_of ["total_events"; "n_file_create"; "ratio_file_create"]
            [VInt 100; VInt 10; VFloat 0.9].
End MoreSamples.

(** ** src/explain_utils.py *)

Module Explain.
Definition MSG_ENTROPY : string :=
  "The file looks heavily scrambled, a common way malware hides itself.".
Definition MSG_CRYPT : string :=
  "It appears to contain code related to encrypting or changing files.".
Definition MSG_SECTION : string :=
  "Its internal structure looks unusual compared to normal programs.".
Definition MSG_BTC : string :=
  "It has patterns related to cryptocurrency usage.".
Definition MSG_WRITE : string :=
  "It shows patterns similar to fast file changes seen in ransomware.".
Definition MSG_DEFAULT : string :=
  "This file’s characteristics look unusual compared to safe files.".

(** [s.lower()] on ASCII text: the letters A to Z are lowered. *)
Fixpoint ascii_lower (s : string) : string :=
  match s with
  | EmptyString => EmptyString
  | String c s' => String (FloatLiteral.lower c) (ascii_lower s')
  end.

(** [sub in s] *)
Fixpoint contains (sub s : string) : bool :=
  String.prefix sub s ||
  match s with
  | EmptyString => false
  | String _ s' => contains sub s'
  end.

(** The second loop: [if m not in out: out.append(m)]. *)
Fixpoint dedupe (msgs out : list string) : list string :=
  match msgs with
  | [] => out
  | m :: rest => dedupe rest (if decide (m ∈ out) then out else out ++ [m])
  end.

Section WithLower.
(** [str.lower], the interpreter's: it follows the Unicode tables, which
    are taken as given. *)
Variable lower : string -> string.

(** The [if]/[elif] chain on one feature name: the sentence appended, if
    any. *)
Definition sentence_for (feat : string) : option string :=
  let f := lower feat in
  if contains "entropy" f then Some MSG_ENTROPY
  else if contains "import" f || contains "crypt" f
          || contains "virtualalloc" f then Some MSG_CRYPT
  else if contains "section" f || contains "numberofsections" f
  then Some MSG_SECTION
  else if contains "bitcoin" f || contains "btc" f then Some MSG_BTC
  else if contains "write" f || contains "bulk" f || contains "encrypt" f
  then Some MSG_WRITE
  else None.

(** The first loop: one sentence per matching feature, in order. *)
Fixpoint collect (top_features : list (string * float)) (msgs : list string)
  : list string :=
  match top_features with
  | [] => msgs
  | (feat, _) :: rest =>
      collect rest
        match sentence_for feat with
        | Some m => msgs ++ [m]
        | None => msgs
        end
  end.

Definition friendly_explanations (top_features : list (string * float))
  : list string :=
  let msgs := collect top_features [] in
  let out := dedupe msgs [] in
  let out := match out with [] => [MSG_DEFAULT] | _ => out end in
  take 3 out.
End WithLower.
End Explain.

(** ** src/static_model.py *)

(** A missing column label, as pandas raises it. *)
Definition KeyError : exn := OtherError "KeyError".

(** Every row of a frame has one cell per column. *)
Definition well_formed (df : DataFrame) : Prop :=
  Forall (fun r => length r.2 = length (columns df)) (rows df).

(** The cell a row holds under a column label, 0.0 when no column bears
    the label. *)
Definition cell_or_zero (cols : list string) (vals : list value) (c : string)
  : value :=
  get (series_of cols vals) c (VFloat 0).

(** [X[c] = v] for a label [c] that is not a column yet: a new last column
    holding [v] in every row. *)
Definition setitem_new (X : DataFrame) (c : string) (v : value) : DataFrame :=
  {| columns := columns X ++ [c];
     rows := (fun '(idx, vals) => (idx, vals ++ [v])) <$> rows X |}.

(** The positions of the columns labelled [c], counted from [i]. *)
Fixpoint positions (cols : list string) (c : string) (i : nat) : list nat :=
  match cols with
  | [] => []
  | x :: cols' =>
      (if decide (x = c) then [i] else []) ++ positions cols' c (S i)
  end.

(** [X[labels]]: for each label in turn, every column that bears it; a
    label that no column bears is a [KeyError]. *)
Definition getitem (X : DataFrame) (labels : list string) : result DataFrame :=
  if forallb (fun c => bool_decide (c ∈ columns X)) labels then
    let picks :=
      labels ≫= (fun c => (fun i => (c, i)) <$> positions (columns X) c 0) in
    Ok {| columns := picks.*1;
          rows := (fun '(idx, vals) =>
                     (idx, omap (fun pick => vals !! pick.2) picks))
                  <$> rows X |}
  else Err KeyError.

(** The loop of [_ensure_order]. *)
Fixpoint fill_missing (feats : list string) (X : DataFrame) : DataFrame :=
  match feats with
  | [] => X
  | c :: rest =>
      fill_missing rest
        (if bool_decide (c ∈ columns X) then X
         else setitem_new X c (VFloat 0))
  end.

Definition _ensure_order (X : DataFrame) (feats : list string)
  : result DataFrame :=
  getitem (fill_missing feats X) feats.

(** The element type of an array of probabilities: binary32 for a
    gradient-boosted classifier, binary64 for a random forest. *)
Inductive dtype : Type :=
  | float32
  | float64.

(** A number rounded to the nearest binary32 number, ties to even, and
    held as the binary64 number of the same value; beyond the largest
    binary32 number the result is infinite. *)
Definition to_float32 (x : float) : float :=
  match Prim2SF x with
  | S754_finite s m e =>
      SF2Prim (binary_normalize 24 128 (if s then Z.neg m else Z.pos m) e s)
  | _ => x
  end.

(** The Python float [x] in a comparison with an array of element type
    [dt]: numpy takes the scalar into the array's type. *)
Definition as_dtype (dt : dtype) (x : float) : float :=
  match dt with
  | float32 => to_float32 x
  | float64 => x
  end.

(** [x] lies within the range of [dt]: taking it into [dt] does not
    overflow.  (For a scalar beyond the range the versions of numpy differ:
    the older ones compare in binary64.) *)
Definition within_range (dt : dtype) (x : float) : bool :=
  Bool.eqb (is_infinity (as_dtype dt x)) (is_infinity x).

(** What [_load_once] hands out: the classifier (its [predict_proba] for
    the positive class with the element type of that array, and the
    feature importances of its last step, when it has any), the feature
    names and the threshold. *)
Record StaticModel : Type := {
  model_feats : list string;
  model_thr : float;
  predict_proba : DataFrame -> result (list float);
  proba_dtype : dtype;
  feature_importances_ : option (list float)
}.

Module Static.
Section WithRuntime.
(** The interpreter's [str.lower], the artefacts read from disk (an
    exception when a file is missing), and the interpreter's
    [sorted(pairs, key=lambda t: t[1], reverse=True)]. *)
Variable lower : string -> string.
Variable load_once : result StaticModel.
Variable sorted_by_importance :
  list (string * float) -> list (string * float).

Definition _top_features (model : StaticModel) (feats : list string) (k : nat)
  : list (string * float) :=
  match feature_importances_ model with
  | None => []
  | Some fi => take k (sorted_by_importance (zip feats fi))
  end.

Definition predict_static (df : DataFrame) : result ScoreResult :=
  model ← load_once;
  let feats := model_feats model in
  let thr := model_thr model in
  X ← _ensure_order df feats;
  probs ← predict_proba model X;
  let preds := threshold_preds (as_dtype (proba_dtype model) thr) probs in
  let top := _top_features model feats 5 in
  let reasons := Explain.friendly_explanations lower (take 3 top) in
  mret {| probs := probs; preds := preds; threshold_used := thr;
          reasons_list := reasons |}.
End WithRuntime.
End Static.

(** ** src/app.py: the scan routes, from the parsed upload to the reply *)

Module Routes.
(** What a route answers: a reply, or an [HTTPException] with its status
    code. *)
Inductive http (A : Type) : Type :=
  | Response (a : A)
  | HTTPException (status_code : Z).
Arguments Response {A} a.
Arguments HTTPException {A} status_code.

(** The fields of the reply that the scorers decide. *)
Record Reply : Type := {
  verdict : string;
  final_prob : float;
  band : string;
  shown_reasons : list string;
  source_type : option string
}.

Definition is_KeyError (e : exn) : bool :=
  match e with
  | OtherError msg => String.eqb msg "KeyError"
  | _ => false
  end.

Definition is_ValueError (e : exn) : bool :=
  match e with
  | ValueError => true
  | _ => false
  end.

(** [/scan], after the upload has been read into a frame: the fusion, with
    its three [except] clauses. *)
Definition scan_file (predict_static : DataFrame -> result ScoreResult)
    (mean : list float -> float) (df : DataFrame) : http Reply :=
  match combine_model_outputs predict_static mean df with
  | Ok (final_prob, verdict, debug_info) =>
      Response {| verdict := verdict; final_prob := final_prob;
                  band := risk_band debug_info;
                  shown_reasons := reasons debug_info;
                  source_type := None |}
  | Err e =>
      if is_KeyError e then HTTPException 400
      else if is_ValueError e then HTTPException 400
      else HTTPException 500
  end.

(** A reply without its [source_type] field, as [/scan] sends it. *)
Definition without_source (r : Reply) : Reply :=
  {| verdict := verdict r; final_prob := final_prob r; band := band r;
     shown_reasons := shown_reasons r; source_type := None |}.

(** [/scan_behavioral], after the upload has been read into a frame. *)
Definition scan_behavioral (mean : list float -> float) (df : DataFrame)
  : http Reply :=
  match predict_behav (Some df) with
  | Ok r =>
      let behav_prob := mean (probs r) in
      let band := risk_band_from_prob behav_prob in
      let verdict :=
        if (FUSION_THRESHOLD <=? behav_prob)%float then "Malicious"
        else "Safe" in
      Response {| verdict := verdict; final_prob := behav_prob;
                  band := band; shown_reasons := reasons_list r;
                  source_type := Some "behavioural_csv" |}
  | Err e => HTTPException 500
  end.

(** [ascii_safe]: a text is a list of code points; each one above 127
    becomes a question mark. *)
Definition ascii_safe (text : option (list N)) : list N :=
  match text with
  | None => []
  | Some t => (fun c => if (c <=? 127)%N then c else 63%N) <$> t
  end.
End Routes.

(** ** experiments/evaluate_metrics.py: the fusion of paired scores *)

Module Evaluate.
Definition STATIC_WEIGHT : float := 0.6%float.
Definition BEHAVIORAL_WEIGHT : float := 0.4%float.
Definition FUSION_THRESHOLD : float := 0.5%float.

(** The loop over [zip(static_probs, behavioral_probs)]. *)
Definition fused_probs (static_probs behavioral_probs : list float)
  : list float :=
  zip_with (fun s_prob b_prob =>
              (s_prob * STATIC_WEIGHT + b_prob * BEHAVIORAL_WEIGHT)%float)
           static_probs behavioral_probs.

Definition fused_preds (probs : list float) : list Z :=
  (fun prob => if (FUSION_THRESHOLD <=? prob)%float then 1 else 0) <$> probs.

(** The paired scores written into the script. *)
Definition static_results_probs : list float :=
  [0.8; 0.9; 0.1; 0.95; 0.05]%float.
Definition behavioral_results_probs : list float :=
  [0.85; 0.88; 0.15; 0.92; 0.08]%float.

(** The [fused_probs] and [fused_preds] entries of the dictionary that
    [evaluate_fusion_performance] returns. *)
Definition evaluate_fusion_performance : list float * list Z :=
  let probs := fused_probs static_results_probs behavioral_results_probs in
  (probs, fused_preds probs).
End Evaluate.

(** ** The behavioural pipeline: events, event rows, aggregated features *)

Module Pipeline.
(** An event of the log as the extractor looks at it: its [System] child,
    when there is one, with the text of [EventID] and the [SystemTime]
    attribute of [TimeCreated], each possibly absent. *)
Record SystemElem : Type := {
  EventID : option (option string);
  TimeCreated : option (option string)
}.
Definition Event : Type := option SystemElem.

(** [int(text)] in base 10 on ASCII text: white space around, a sign,
    digits that single underscores may separate. *)
Definition py_int (s : string) : result Z :=
  let '(neg, r) :=
    FloatLiteral.sign (FloatLiteral.strip (list_ascii_of_string s)) in
  match FloatLiteral.digitpart r with
  | (d :: ds, []) =>
      let n := FloatLiteral.Z_of_digits (d :: ds) in
      Ok (if neg then - n else n)
  | _ => Err ValueError
  end.

(** The white space [str.strip] removes from ASCII text: the white space of
    [float] and the four separators 28 to 31. *)
Definition is_strip_space (c : ascii) : bool :=
  let n := N_of_ascii c in
  ((9 <=? n) && (n <=? 13) || (28 <=? n) && (n <=? 32))%N.

Fixpoint lstrip (l : list ascii) : list ascii :=
  match l with
  | c :: l' => if is_strip_space c then lstrip l' else l
  | [] => []
  end.

(** [text.strip()] on ASCII text. *)
Definition py_strip (s : string) : string :=
  string_of_list_ascii (rev (lstrip (rev (lstrip (list_ascii_of_string s))))).

Record EventRow : Type := {
  event_id : Z;
  timestamp : string;
  is_process_create : Z;
  is_file_create : Z;
  is_network_conn : Z
}.

Section Extract.
(** The two built-ins the extractor calls on the text of [EventID]. *)
Variable strip : string -> string.
Variable int : string -> result Z.

(** The body of the loop of [extract_behavior_features] for one event: the
    row it appends, nothing when it [continue]s. *)
Definition event_row (ev : Event) : result (option EventRow) :=
  '(event_id, time_created) ←
    match ev with
    | Some system =>
        event_id ←
          match EventID system with
          | Some (Some text) => Some <$> int (strip text)
          | _ => Ok None
          end;
        let time_created :=
          match TimeCreated system with
          | Some attr => attr
          | None => None
          end in
        Ok (event_id, time_created)
    | None => Ok (None, None)
    end;
  match event_id, time_created with
  | Some event_id, Some time_created =>
      Ok (Some {| event_id := event_id; timestamp := time_created;
                  is_process_create := if event_id =? 1 then 1 else 0;
                  is_file_create := if event_id =? 11 then 1 else 0;
                  is_network_conn := if event_id =? 3 then 1 else 0 |})
  | _, _ => Ok None
  end.

(** The rows gathered from the events, in order. *)
Fixpoint event_rows (events : list Event) (rows : list EventRow)
  : result (list EventRow) :=
  match events with
  | [] => Ok rows
  | ev :: events' =>
      r ← event_row ev;
      event_rows events'
        match r with
        | Some row => rows ++ [row]
        | None => rows
        end
  end.

(** What [extract_behavior_features] writes: nothing when no row was
    gathered, the rows otherwise. *)
Definition extract_behavior_features (events : list Event)
  : result (option (list EventRow)) :=
  rows ← event_rows events [];
  match rows with
  | [] => Ok None
  | _ => Ok (Some rows)
  end.

(** An event whose [EventID] text [int] rejects. *)
Definition bad_event_id (ev : Event) : bool :=
  match ev with
  | Some system =>
      match EventID system with
      | Some (Some text) => negb (is_ok (int (strip text)))
      | _ => false
      end
  | None => false
  end.
End Extract.

(** The three flags of a row, as its identifier decides them. *)
Definition flags_set (row : EventRow) : Prop :=
  is_process_create row = (if event_id row =? 1 then 1 else 0) /\
  is_file_create row = (if event_id row =? 11 then 1 else 0) /\
  is_network_conn row = (if event_id row =? 3 then 1 else 0).

(** The number of rows whose event identifier is [k]. *)
Definition count_id (k : Z) (rows : list EventRow) : Z :=
  Z.of_nat (length (filter (fun row => event_id row = k) rows)).

(** A value of a 64-bit integer column. *)
Definition wrap64 (z : Z) : Z := (z + 2 ^ 63) mod 2 ^ 64 - 2 ^ 63.

(** [df[col].sum()] on a 64-bit integer column. *)
Definition column_sum (col : EventRow -> Z) (df : list EventRow) : Z :=
  fold_left (fun acc row => wrap64 (acc + col row)) df 0.

(** The [features] dictionary of [aggregate_behavior_csv], as a row; nothing
    when the table read back has no row. *)
Definition aggregate_behavior_csv (df : list EventRow) (sample_id : string)
  : option Series :=
  match df with
  | [] => None
  | _ =>
      let total_events := Z.of_nat (length df) in
      let n_proc_create := column_sum is_process_create df in
      let n_file_create := column_sum is_file_create df in
      let n_net_conn := column_sum is_network_conn df in
      let safe_ratio (n : Z) : value :=
        if 0 <? total_events
        then VFloat (float_of_Z n / float_of_Z total_events)
        else VInt 0 in
      Some (series_of
              ["sample_id"; "total_events"; "n_proc_create"; "n_file_create";
               "n_net_conn"; "ratio_proc_create"; "ratio_file_create";
               "ratio_net_conn"]
              [VStr sample_id; VInt total_events; VInt n_proc_create;
               VInt n_file_create; VInt n_net_conn; safe_ratio n_proc_create;
               safe_ratio n_file_create; safe_ratio n_net_conn])
  end.
End Pipeline.

(** ** Sample inputs for the static scorer and the pipeline *)

Module StaticSamples.
(** A classifier with two features that answers 0.9 for every row, and
    whose importances rank [SectionEntropy] first. *)
Definition two_features : StaticModel :=
  {| model_feats := ["n_file_create"; "SectionEntropy"];
     model_thr := 0.5;
     predict_proba := fun X => Ok ((fun _ => 0.9%float) <$> rows X);
     proba_dtype := float64;
     feature_importances_ := Some [0.25; 0.75]%float |}.

(** A classifier with binary32 probabilities: the threshold 0.7 of its
    file, and 0.7 rounded to binary32, which lies below it, for every
    row. *)
Definition boosted : StaticModel :=
  {| model_feats := ["n_file_create"; "SectionEntropy"];
     model_thr := 0.7;
     predict_proba :=
       fun X => Ok ((fun _ => 0.699999988079071044921875%float) <$> rows X);
     proba_dtype := float32;
     feature_importances_ := Some [0.25; 0.75]%float |}.

(** The two pairs of [two_features], by decreasing importance. *)
Definition sorted_pairs (l : list (string * float)) : list (string * float) :=
  [("SectionEntropy", 0.75%float); ("n_file_create", 0.25%float)].

(** A table of static features only, under the default index. *)
Definition static_table : DataFrame :=
  {| columns := ["Machine"; "SectionEntropy"];
     rows := [(LInt 0, [VInt 332; VFloat 7.5]);
              (LInt 1, [VInt 332; VFloat 2.25])] |}.

(** A loader whose model file is missing. *)
Definition no_model : result StaticModel :=
  Err (OtherError "model file not found").

(** Four events: a file creation, an event without [System], a process
    creation without time stamp, a network connection. *)
Definition four_events : list Pipeline.Event :=
  [Some {| Pipeline.EventID := Some (Some " 11 ");
           Pipeline.TimeCreated := Some (Some "2024-01-01T00:00:00Z") |};
   None;
   Some {| Pipeline.EventID := Some (Some "1");
           Pipeline.TimeCreated := Some None |};
   Some {| Pipeline.EventID := Some (Some "3");
           Pipeline.TimeCreated := Some (Some "2024-01-01T00:00:01Z") |}].

(** The rows written for [four_events]. *)
Definition written_rows : list Pipeline.EventRow :=
  [{| Pipeline.event_id := 11;
      Pipeline.timestamp := "2024-01-01T00:00:00Z";
      Pipeline.is_process_create := 0; Pipeline.is_file_create := 1;
      Pipeline.is_network_conn := 0 |};
   {| Pipeline.event_id := 3;
      Pipeline.timestamp := "2024-01-01T00:00:01Z";
      Pipeline.is_process_create := 0; Pipeline.is_file_create := 0;
      Pipeline.is_network_conn := 1 |}].

(** An event whose identifier is not an integer, and which has no time
    stamp. *)
Definition bad_event : list Pipeline.Event :=
  [Some {| Pipeline.EventID := Some (Some "eleven");
           Pipeline.TimeCreated := None |}].
End StaticSamples.

(** * Properties *)

(** ** Comparisons of binary64 numbers with the constants of the code *)

Module FloatFacts.
(** Swapping the operands of a comparison reverses its outcome. *)
Lemma SFcompare_antisym (x y : spec_float) :
  SFcompare y x = CompOpp <$> SFcompare x y.
Proof.
  destruct x as [[]|[]| |[] m1 e1], y as [[]|[]| |[] m2 e2]; try reflexivity;
    unfold SFcompare;
    rewrite (Z.compare_antisym e1 e2);
    destruct (e1 ?= e2); try reflexivity;
    change (Pos.compare_cont Eq ?a ?b) with (Pos.compare a b);
    rewrite (Pos.compare_antisym m1 m2);
    destruct (m1 ?= m2)%positive; reflexivity.
Qed.

Lemma leb_true_ltb_false (x y : float) :
  (x <=? y)%float = true -> (y <? x)%float = false.
Proof.
  rewrite leb_spec, ltb_spec. unfold SFleb, SFltb.
  rewrite (SFcompare_antisym (Prim2SF x) (Prim2SF y)).
  destruct (SFcompare (Prim2SF x) (Prim2SF y)) as [[]|]; cbv; congruence.
Qed.

Lemma ltb_true_leb_false (x y : float) :
  (x <? y)%float = true -> (y <=? x)%float = false.
Proof.
  rewrite leb_spec, ltb_spec. unfold SFleb, SFltb.
  rewrite (SFcompare_antisym (Prim2SF x) (Prim2SF y)).
  destruct (SFcompare (Prim2SF x) (Prim2SF y)) as [[]|]; cbv; congruence.
Qed.

(** The image of a constant under [Prim2SF]; a comparison with it is then
    settled on sign, exponent and mantissa. *)
Ltac spec_const c :=
  let v := eval vm_compute in (Prim2SF c) in
  replace (Prim2SF c) with v by (vm_compute; reflexivity).

Ltac by_spec p :=
  generalize (Prim2SF p);
  intros [s|s| |s m e]; unfold SFleb, SFltb, SFcompare;
  try destruct s; try congruence; try reflexivity.

(** At or above the verdict threshold is not below the lower band edge. *)
Lemma le_half_not_lt_030 (p : float) :
  (0.50 <=? p)%float = true -> (p <? 0.30)%float = false.
Proof.
  rewrite leb_spec, ltb_spec.
  spec_const 0.50%float. spec_const 0.30%float. by_spec p.
  destruct (Z.compare_spec (-53) e), (Z.compare_spec e (-54));
    try lia; congruence.
Qed.

(** Above the upper band edge is not below the lower one. *)
Lemma lt_070_not_lt_030 (p : float) :
  (0.70 <? p)%float = true -> (p <? 0.30)%float = false.
Proof.
  rewrite !ltb_spec.
  spec_const 0.70%float. spec_const 0.30%float. by_spec p.
  destruct (Z.compare_spec (-53) e), (Z.compare_spec e (-54));
    try lia; congruence.
Qed.
End FloatFacts.

(** ** The error monad *)

Module ResultFacts.
Lemma bind_Ok {A B} (m : result A) (f : A -> result B) (b : B) :
  m ≫= f = Ok b <-> exists a, m = Ok a /\ f a = Ok b.
Proof.
  destruct m as [a|e]; simpl; split.
  - intros H. exists a. split; [reflexivity | exact H].
  - intros (a' & Ha & H). injection Ha as ->. exact H.
  - intros H. discriminate H.
  - intros (a' & Ha & _). discriminate Ha.
Qed.

Lemma bind_Err {A B} (m : result A) (f : A -> result B) (e : exn) :
  m ≫= f = Err e <-> m = Err e \/ exists a, m = Ok a /\ f a = Err e.
Proof.
  destruct m as [a|e']; simpl; split.
  - intros H. right. exists a. split; [reflexivity | exact H].
  - intros [Ha | (a' & Ha & H)]; [discriminate Ha |].
    injection Ha as ->. exact H.
  - intros H. left. injection H as ->. reflexivity.
  - intros [H | (a' & Ha & _)]; [| discriminate Ha].
    injection H as ->. reflexivity.
Qed.

Lemma is_ok_true {A} (m : result A) : is_ok m = true <-> exists a, m = Ok a.
Proof.
  destruct m as [a|e]; simpl; split; eauto; try discriminate.
  intros (a & H). discriminate H.
Qed.

Lemma is_ok_false {A} (m : result A) : is_ok m = false <-> exists e, m = Err e.
Proof.
  destruct m as [a|e]; simpl; split; eauto; try discriminate.
  intros (e & H). discriminate H.
Qed.
End ResultFacts.

(** ** The rules of the behavioural scorer *)

Module RuleFacts.
(** The score the code accumulates is the clamped sum of the triggered
    weights: one case per subset of rules. *)
Lemma score_features_rule_score (ft : Features) :
  (score_features ft).1 = rule_score ft.
Proof.
  unfold score_features, rule_score, file_rule, net_rule, proc_rule.
  generalize ((1000 <? n_file ft) || (0.5 <? ratio_file ft))%float.
  generalize ((5 <? n_net ft) || (0.02 <? ratio_net ft))%float.
  generalize ((10 <? n_proc ft) || (0.02 <? ratio_proc ft))%float.
  intros [] [] []; vm_compute; reflexivity.
Qed.


(** The reasons are never empty. *)
Lemma score_features_reasons (ft : Features) : (score_features ft).2 <> [].
Proof.
  unfold score_features, file_rule, net_rule, proc_rule.
  generalize ((1000 <? n_file ft) || (0.5 <? ratio_file ft))%float.
  generalize ((5 <? n_net ft) || (0.02 <? ratio_net ft))%float.
  generalize ((10 <? n_proc ft) || (0.02 <? ratio_proc ft))%float.
  intros [] [] []; vm_compute; discriminate.
Qed.

Lemma compute_Ok (row : Series) (out : float * list string) :
  _compute_behav_score row = Ok out <->
  exists ft, read_features row = Ok ft /\ out = score_features ft.
Proof.
  unfold _compute_behav_score. rewrite ResultFacts.bind_Ok.
  split; intros (ft & Hft & H); exists ft; (split; [exact Hft |]).
  - injection H as <-. reflexivity.
  - rewrite H. reflexivity.
Qed.

Lemma compute_Ok_score (row : Series) (sc : float) (r : list string) :
  _compute_behav_score row = Ok (sc, r) ->
  exists ft, read_features row = Ok ft /\ sc = rule_score ft.
Proof.
  intros H. apply compute_Ok in H as (ft & Hft & Hout).
  exists ft. split; [exact Hft |].
  rewrite <- score_features_rule_score, <- Hout. reflexivity.
Qed.

Lemma compute_Err (row : Series) (e : exn) :
  _compute_behav_score row = Err e <-> read_features row = Err e.
Proof.
  unfold _compute_behav_score. rewrite ResultFacts.bind_Err.
  split; [intros [H | (ft & _ & H)]; [exact H | discriminate H] | tauto].
Qed.
End RuleFacts.

(** ** Reading the fields of a row *)

Module FieldFacts.
Import FloatFacts.

(** A positive number is not zero: the guard [total > 0] protects the
    division. *)
Lemma lt_zero_not_eqb (t : float) :
  (0 <? t)%float = true -> (t =? 0)%float = false.
Proof.
  rewrite ltb_spec, FloatAxioms.eqb_spec. unfold SFltb, SFeqb.
  rewrite (SFcompare_antisym (Prim2SF 0) (Prim2SF t)).
  destruct (SFcompare (Prim2SF 0) (Prim2SF t)) as [[]|]; cbv; congruence.
Qed.

Lemma py_float_zero : py_float (VInt 0) = Ok 0%float.
Proof. vm_compute. reflexivity. Qed.

Lemma py_float_truthy (v : value) :
  coercible v = true -> truthy v = true -> exists f, py_float v = Ok f.
Proof.
  destruct v as [|b|z|f|s]; simpl; intros Hc Ht.
  - discriminate Ht.
  - eauto.
  - apply negb_true_iff in Hc. rewrite Hc. eauto.
  - eauto.
  - apply orb_true_iff in Hc as [Hc | Hc].
    + rewrite Hc in Ht. discriminate Ht.
    + apply andb_true_iff in Hc as [_ Hc].
      apply bool_decide_eq_true in Hc as [f Hf]. rewrite Hf. eauto.
Qed.

(** [float] raises nothing but [ValueError] and [OverflowError] on a
    truthy cell. *)
Lemma py_float_truthy_Err (v : value) (e : exn) :
  truthy v = true -> py_float v = Err e ->
  e = ValueError \/ e = OverflowError.
Proof.
  destruct v as [|b|z|f|s]; simpl; intros Ht H; try discriminate.
  - destruct (is_infinity (float_of_Z z)); [| discriminate H].
    injection H as <-. right. reflexivity.
  - destruct (FloatLiteral.parse s); [discriminate H |].
    injection H as <-. left. reflexivity.
Qed.

Lemma get_coercible (row : Series) (key : string) :
  row_coercible row = true -> key ∈ behav_keys ->
  coercible (get row key (VInt 0)) = true.
Proof.
  intros Hrow Hkey. unfold row_coercible in Hrow.
  rewrite forallb_forall in Hrow. apply Hrow, list_elem_of_In, Hkey.
Qed.

(** A falsy field reads as 0. *)
Lemma count_field_falsy (row : Series) (key : string) :
  truthy (get row key (VInt 0)) = false -> count_field row key = Ok 0%float.
Proof.
  intros Ht. unfold count_field, py_or. rewrite Ht. exact py_float_zero.
Qed.

Lemma count_field_truthy (row : Series) (key : string) :
  truthy (get row key (VInt 0)) = true ->
  count_field row key = py_float (get row key (VInt 0)).
Proof. intros Ht. unfold count_field, py_or. rewrite Ht. reflexivity. Qed.

Lemma count_field_ok (row : Series) (key : string) :
  coercible (get row key (VInt 0)) = true ->
  exists f, count_field row key = Ok f.
Proof.
  intros Hc. destruct (truthy (get row key (VInt 0))) eqn:Ht.
  - rewrite (count_field_truthy _ _ Ht). exact (py_float_truthy _ Hc Ht).
  - rewrite (count_field_falsy _ _ Ht). eauto.
Qed.

Lemma count_field_Err (row : Series) (key : string) (e : exn) :
  count_field row key = Err e -> e = ValueError \/ e = OverflowError.
Proof.
  destruct (truthy (get row key (VInt 0))) eqn:Ht.
  - rewrite (count_field_truthy _ _ Ht). exact (py_float_truthy_Err _ _ Ht).
  - rewrite (count_field_falsy _ _ Ht). discriminate.
Qed.

(** The right operand of the [or] in a ratio: the quotient under the
    guard, the integer 0 otherwise; it never raises. *)
Lemma ratio_default (n total : float) :
  (if (0 <? total)%float then VFloat <$> py_truediv n total
   else Ok (VInt 0))
  = Ok (if (0 <? total)%float then VFloat (n / total) else VInt 0).
Proof.
  destruct (0 <? total)%float eqn:Hpos; [| reflexivity].
  unfold py_truediv. rewrite (lt_zero_not_eqb _ Hpos). reflexivity.
Qed.

Lemma ratio_field_falsy (row : Series) (key : string) (n total : float) :
  truthy (get row key (VInt 0)) = false ->
  ratio_field row key n total
  = Ok (if (0 <? total)%float then (n / total)%float else 0%float).
Proof.
  intros Ht. unfold ratio_field, py_or_lazy. rewrite Ht, ratio_default.
  destruct (0 <? total)%float; [reflexivity | exact py_float_zero].
Qed.

Lemma ratio_field_truthy (row : Series) (key : string) (n total : float) :
  truthy (get row key (VInt 0)) = true ->
  ratio_field row key n total = py_float (get row key (VInt 0)).
Proof. intros Ht. unfold ratio_field, py_or_lazy. rewrite Ht. reflexivity. Qed.

Lemma ratio_field_ok (row : Series) (key : string) (n total : float) :
  coercible (get row key (VInt 0)) = true ->
  exists f, ratio_field row key n total = Ok f.
Proof.
  intros Hc. destruct (truthy (get row key (VInt 0))) eqn:Ht.
  - rewrite (ratio_field_truthy _ _ _ _ Ht). exact (py_float_truthy _ Hc Ht).
  - rewrite (ratio_field_falsy _ _ _ _ Ht). eauto.
Qed.

Lemma ratio_field_Err (row : Series) (key : string) (n total : float)
    (e : exn) :
  ratio_field row key n total = Err e -> e = ValueError \/ e = OverflowError.
Proof.
  destruct (truthy (get row key (VInt 0))) eqn:Ht.
  - rewrite (ratio_field_truthy _ _ _ _ Ht).
    exact (py_float_truthy_Err _ _ Ht).
  - rewrite (ratio_field_falsy _ _ _ _ Ht). discriminate.
Qed.

(** A missing column is falsy: [row.get] answers the integer 0. *)
Lemma get_missing (row : Series) (key : string) :
  row !! key = None -> truthy (get row key (VInt 0)) = false.
Proof. intros H. unfold get. rewrite H. reflexivity. Qed.
End FieldFacts.

(** ** The features of a row *)

Module FeatureFacts.
Import FloatFacts FieldFacts.

Ltac in_keys := unfold behav_keys; set_solver.

(** Zero is not positive, whatever its sign. *)
Lemma eqb_zero_not_lt (t : float) :
  (t =? 0)%float = true -> (0 <? t)%float = false.
Proof.
  rewrite ltb_spec, FloatAxioms.eqb_spec. unfold SFltb, SFeqb.
  rewrite (SFcompare_antisym (Prim2SF 0) (Prim2SF t)).
  destruct (SFcompare (Prim2SF 0) (Prim2SF t)) as [[]|]; cbv; congruence.
Qed.

(** Every field of a coercible row is read. *)
Lemma read_features_ok (row : Series) :
  row_coercible row = true -> exists ft, read_features row = Ok ft.
Proof.
  intros Hrow. unfold read_features.
  destruct (count_field_ok row "total_events") as [t ->];
    [apply get_coercible; [exact Hrow | in_keys] |].
  destruct (count_field_ok row "n_proc_create") as [np ->];
    [apply get_coercible; [exact Hrow | in_keys] |].
  destruct (count_field_ok row "n_file_create") as [nf ->];
    [apply get_coercible; [exact Hrow | in_keys] |].
  destruct (count_field_ok row "n_net_conn") as [nn ->];
    [apply get_coercible; [exact Hrow | in_keys] |].
  simpl.
  destruct (ratio_field_ok row "ratio_proc_create" np t) as [rp ->];
    [apply get_coercible; [exact Hrow | in_keys] |].
  destruct (ratio_field_ok row "ratio_file_create" nf t) as [rf ->];
    [apply get_coercible; [exact Hrow | in_keys] |].
  destruct (ratio_field_ok row "ratio_net_conn" nn t) as [rn ->];
    [apply get_coercible; [exact Hrow | in_keys] |].
  simpl. eauto.
Qed.

(** Reading the features raises nothing but [ValueError] and
    [OverflowError]. *)
Lemma read_features_Err (row : Series) (e : exn) :
  read_features row = Err e -> e = ValueError \/ e = OverflowError.
Proof.
  unfold read_features.
  destruct (count_field row "total_events") as [t|e0] eqn:H0;
    [| intros [= <-]; exact (count_field_Err _ _ _ H0)].
  destruct (count_field row "n_proc_create") as [np|e1] eqn:H1;
    [| intros [= <-]; exact (count_field_Err _ _ _ H1)].
  destruct (count_field row "n_file_create") as [nf|e2] eqn:H2;
    [| intros [= <-]; exact (count_field_Err _ _ _ H2)].
  destruct (count_field row "n_net_conn") as [nn|e3] eqn:H3;
    [| intros [= <-]; exact (count_field_Err _ _ _ H3)].
  simpl.
  destruct (ratio_field row "ratio_proc_create" np t) as [rp|e4] eqn:H4;
    [| intros [= <-]; exact (ratio_field_Err _ _ _ _ _ H4)].
  destruct (ratio_field row "ratio_file_create" nf t) as [rf|e5] eqn:H5;
    [| intros [= <-]; exact (ratio_field_Err _ _ _ _ _ H5)].
  destruct (ratio_field row "ratio_net_conn" nn t) as [rn|e6] eqn:H6;
    [| intros [= <-]; exact (ratio_field_Err _ _ _ _ _ H6)].
  simpl. discriminate.
Qed.

(** The scorer never divides by zero. *)
Lemma no_zero_division (row : Series) :
  _compute_behav_score row <> Err ZeroDivisionError.
Proof.
  intros H. apply RuleFacts.compute_Err, read_features_Err in H.
  destruct H; discriminate.
Qed.

(** With no events and no ratio supplied, the three ratios are 0. *)
Lemma read_features_zero_total (row : Series) (t np nf nn : float) :
  count_field row "total_events" = Ok t ->
  (t =? 0)%float = true ->
  count_field row "n_proc_create" = Ok np ->
  count_field row "n_file_create" = Ok nf ->
  count_field row "n_net_conn" = Ok nn ->
  row !! "ratio_proc_create" = None ->
  row !! "ratio_file_create" = None ->
  row !! "ratio_net_conn" = None ->
  read_features row
  = Ok {| total := t; n_proc := np; n_file := nf; n_net := nn;
          ratio_proc := 0; ratio_file := 0; ratio_net := 0 |}.
Proof.
  intros Ht Hz Hp Hf Hn Rp Rf Rn. unfold read_features.
  rewrite Ht, Hp, Hf, Hn. simpl.
  rewrite !ratio_field_falsy by (apply get_missing; assumption).
  rewrite (eqb_zero_not_lt _ Hz). reflexivity.
Qed.
End FeatureFacts.

(** ** The loop over the rows *)

Module LoopFacts.
(** The scores are appended in row order, one per row. *)
Lemma score_rows_probs (its : list (label * Series)) :
  forall acc rf ps rs,
    score_rows its acc rf = Ok (ps, rs) ->
    exists scores,
      ps = acc ++ scores /\
      Forall2 (fun it sc => exists r, _compute_behav_score it.2 = Ok (sc, r))
              its scores.
Proof.
  induction its as [|[idx row] its IH]; intros acc rf ps rs H; simpl in H.
  - injection H as <- <-. exists []. split; [| constructor].
    symmetry. apply app_nil_r.
  - destruct (_compute_behav_score row) as [[sc r]|e] eqn:Hrow;
      [| discriminate H].
    simpl in H. apply IH in H as (scores & -> & Hall).
    exists (sc :: scores). split.
    + rewrite <- app_assoc. reflexivity.
    + constructor; [exists r; exact Hrow | exact Hall].
Qed.

(** Rows whose label is not 0 leave [reasons_for_first] as it was. *)
Lemma score_rows_no_zero (its : list (label * Series)) :
  forall acc rf ps rs,
    Forall (fun it => label_is_zero it.1 = false) its ->
    score_rows its acc rf = Ok (ps, rs) -> rs = rf.
Proof.
  induction its as [|[idx row] its IH]; intros acc rf ps rs Hz H;
    simpl in H.
  - injection H as _ <-. reflexivity.
  - destruct (_compute_behav_score row) as [[sc r]|e]; [| discriminate H].
    simpl in H. inversion Hz as [|? ? Hidx Hrest]; subst.
    simpl in Hidx. rewrite Hidx in H. exact (IH _ _ _ _ Hrest H).
Qed.

(** The loop ends normally when every row is scored. *)
Lemma score_rows_total (its : list (label * Series)) :
  forall acc rf,
    Forall (fun it => is_ok (_compute_behav_score it.2) = true) its ->
    exists st, score_rows its acc rf = Ok st.
Proof.
  induction its as [|[idx row] its IH]; intros acc rf Hall; simpl.
  - eauto.
  - inversion Hall as [|? ? Hrow Hrest]; subst. simpl in Hrow.
    destruct (_compute_behav_score row) as [out|e]; [| discriminate Hrow].
    simpl. apply IH. exact Hrest.
Qed.

(** The loop raises what the first failing row raises. *)
Lemma score_rows_Err (its : list (label * Series)) :
  forall acc rf e,
    score_rows its acc rf = Err e ->
    Exists (fun it => _compute_behav_score it.2 = Err e) its.
Proof.
  induction its as [|[idx row] its IH]; intros acc rf e H; simpl in H.
  - discriminate H.
  - destruct (_compute_behav_score row) as [out|e'] eqn:Hrow.
    + simpl in H. apply Exists_cons_tl. exact (IH _ _ _ H).
    + injection H as ->. apply Exists_cons_hd. exact Hrow.
Qed.

Lemma score_rows_raises (its : list (label * Series)) :
  forall acc rf,
    Exists (fun it => is_ok (_compute_behav_score it.2) = false) its ->
    exists e, score_rows its acc rf = Err e.
Proof.
  induction its as [|[idx row] its IH]; intros acc rf Hex; simpl.
  - inversion Hex.
  - destruct (_compute_behav_score row) as [out|e] eqn:Hrow; simpl.
    + apply IH. inversion Hex as [? ? Hbad|? ? Hrest]; subst.
      * simpl in Hbad. rewrite Hrow in Hbad. discriminate Hbad.
      * exact Hrest.
    + eauto.
Qed.

(** The labels that follow 0 in the default index are not 0. *)
Lemma range_index_tail (n : nat) :
  range_index (S n) = LInt 0 :: ((fun i => LInt (Z.of_nat i)) <$> seq 1 n).
Proof. reflexivity. Qed.

Lemma seq_labels_nonzero (k n : nat) :
  (0 < k)%nat ->
  Forall (fun l => label_is_zero l = false)
         ((fun i => LInt (Z.of_nat i)) <$> seq k n).
Proof.
  revert k. induction n as [|n IH]; intros k Hk; simpl.
  - constructor.
  - constructor.
    + simpl. apply Z.eqb_neq. lia.
    + apply IH. lia.
Qed.

Lemma iterrows_labels (df : DataFrame) : (iterrows df).*1 = (rows df).*1.
Proof.
  unfold iterrows. induction (rows df) as [|[idx vals] l IH]; simpl.
  - reflexivity.
  - f_equal. exact IH.
Qed.

Lemma iterrows_length (df : DataFrame) :
  length (iterrows df) = length (rows df).
Proof. unfold iterrows. apply length_fmap. Qed.
End LoopFacts.

(** ** What [predict_behav] returns *)

Module BehavFacts.
Import LoopFacts.

(** On a frame with rows and columns the result is built from the loop. *)
Lemma predict_behav_rows (d : DataFrame) (sr : ScoreResult) :
  empty d = false ->
  predict_behav (Some d) = Ok sr <->
  exists rs,
    score_rows (iterrows d) [] [] = Ok (probs sr, rs) /\
    sr = {| probs := probs sr;
            preds := threshold_preds BEHAV_THRESHOLD (probs sr);
            threshold_used := BEHAV_THRESHOLD;
            reasons_list := rs |}.
Proof.
  intros Hne. unfold predict_behav. rewrite Hne.
  destruct (score_rows (iterrows d) [] []) as [[ps rs]|e]; simpl; split.
  - intros [= <-]. exists rs. split; reflexivity.
  - intros (rs' & [= Hps <-] & ->). simpl in *. subst ps. reflexivity.
  - discriminate.
  - intros (rs' & H & _). discriminate H.
Qed.

(** In either case the predictions are the thresholded probabilities. *)
Lemma predict_behav_preds (df : option DataFrame) (sr : ScoreResult) :
  predict_behav df = Ok sr ->
  preds sr = threshold_preds BEHAV_THRESHOLD (probs sr).
Proof.
  destruct df as [d|]; [destruct (empty d) eqn:Hne |].
  - unfold predict_behav. rewrite Hne. intros [= <-]. reflexivity.
  - intros H. apply (predict_behav_rows _ _ Hne) in H as (rs & _ & ->).
    reflexivity.
  - intros [= <-]. reflexivity.
Qed.


Lemma threshold_preds_lookup (thr : float) (ps : list float) (i : nat)
    (p : float) :
  ps !! i = Some p ->
  threshold_preds thr ps !! i = Some (if (thr <=? p)%float then 1 else 0).
Proof.
  intros H. unfold threshold_preds. rewrite list_lookup_fmap, H.
  reflexivity.
Qed.
End BehavFacts.

(** C8: for an absent or empty behavioural input the scorer returns exactly
    one probability 0.0, one prediction 0, the threshold 0.6 and the single
    reason that no behavioural events were available. *)
Theorem predict_behav_no_events (df : option DataFrame) :
  (df = None \/ exists d, df = Some d /\ empty d = true) ->
  predict_behav df
  = Ok {| probs := [0.0%float]; preds := [0]; threshold_used := 0.6%float;
          reasons_list := ["No behavioural events available for analysis."] |}.
Proof.
  intros [-> | (d & -> & He)].
  - reflexivity.
  - unfold predict_behav. rewrite He. reflexivity.
Qed.

Lemma predict_behav_no_events_witness :
  predict_behav None = Ok no_events_result /\
  predict_behav (Some Samples.no_rows) = Ok no_events_result.
Proof.
  split.
  - apply (predict_behav_no_events None). left. reflexivity.
  - apply (predict_behav_no_events (Some Samples.no_rows)).
    right. exists Samples.no_rows. split; reflexivity.
Defined.



(** C9: when [total_events] reads as zero and no ratio column is supplied,
    the three ratios are 0 whatever the counts are; and the scorer never
    raises a division by zero, on any row. *)
Theorem zero_total_gives_zero_ratios (row : Series) (t np nf nn : float) :
  count_field row "total_events" = Ok t ->
  (t =? 0)%float = true ->
  count_field row "n_proc_create" = Ok np ->
  count_field row "n_file_create" = Ok nf ->
  count_field row "n_net_conn" = Ok nn ->
  row !! "ratio_proc_create" = None ->
  row !! "ratio_file_create" = None ->
  row !! "ratio_net_conn" = None ->
  (exists ft,
     read_features row = Ok ft /\
     n_proc ft = np /\ n_file ft = nf /\ n_net ft = nn /\
     ratio_proc ft = 0%float /\ ratio_file ft = 0%float /\
     ratio_net ft = 0%float /\
     _compute_behav_score row = Ok (score_features ft)) /\
  (forall any_row : Series, _compute_behav_score any_row <> Err ZeroDivisionError).
Proof.
  intros Ht Hz Hp Hf Hn Rp Rf Rn. split.
  - pose proof (FeatureFacts.read_features_zero_total
                  row t np nf nn Ht Hz Hp Hf Hn Rp Rf Rn) as H.
    eexists. split; [exact H |]. repeat split.
    unfold _compute_behav_score. rewrite H. reflexivity.
  - exact FeatureFacts.no_zero_division.
Qed.

Lemma zero_total_gives_zero_ratios_witness :
  exists ft,
    read_features Samples.idle_row = Ok ft /\
    n_proc ft = 7%float /\ n_file ft = 5000%float /\ n_net ft = 9%float /\
    ratio_proc ft = 0%float /\ ratio_file ft = 0%float /\
    ratio_net ft = 0%float /\
    _compute_behav_score Samples.idle_row = Ok (score_features ft).
Proof.
  refine (proj1 (zero_total_gives_zero_ratios
                   Samples.idle_row 0 7 5000 9 _ _ _ _ _ _ _ _));
    vm_compute; reflexivity.
Defined.

(** ** Rows the scorer cannot read *)

Module TextFacts.
Import FieldFacts.

Lemma count_field_text (row : Series) (key s : string) :
  row !! key = Some (VStr s) -> s <> "" -> FloatLiteral.parse s = None ->
  count_field row key = Err ValueError.
Proof.
  intros Hk Hs Hp.
  assert (Hg : get row key (VInt 0) = VStr s) by (unfold get; rewrite Hk; reflexivity).
  rewrite count_field_truthy; rewrite Hg; simpl.
  - rewrite Hp. reflexivity.
  - apply negb_true_iff, String.eqb_neq, Hs.
Qed.

Lemma ratio_field_text (row : Series) (key s : string) (n t : float) :
  row !! key = Some (VStr s) -> s <> "" -> FloatLiteral.parse s = None ->
  ratio_field row key n t = Err ValueError.
Proof.
  intros Hk Hs Hp.
  assert (Hg : get row key (VInt 0) = VStr s) by (unfold get; rewrite Hk; reflexivity).
  rewrite ratio_field_truthy; rewrite Hg; simpl.
  - rewrite Hp. reflexivity.
  - apply negb_true_iff, String.eqb_neq, Hs.
Qed.

(** One step through [read_features]: the field at the head either is
    the unreadable one, or is read, or raises first. *)
Ltac through Hc Hr :=
  first
    [ rewrite Hc; simpl; reflexivity
    | rewrite Hr; simpl; reflexivity
    | match goal with
      | |- is_ok (?m ≫= _) = false =>
          destruct m; simpl; [| reflexivity]
      end ].

(** Text that is not a number in any of the seven columns makes the
    scorer raise. *)
Lemma compute_text (row : Series) (key s : string) :
  key ∈ behav_keys ->
  row !! key = Some (VStr s) -> s <> "" -> FloatLiteral.parse s = None ->
  is_ok (_compute_behav_score row) = false.
Proof.
  intros Hkey Hk Hs Hp.
  pose proof (count_field_text row key s Hk Hs Hp) as Hc.
  pose proof (fun n t => ratio_field_text row key s n t Hk Hs Hp) as Hr.
  replace (is_ok (_compute_behav_score row))
    with (is_ok (read_features row))
    by (unfold _compute_behav_score; destruct (read_features row);
        reflexivity).
  unfold read_features, behav_keys in *.
  repeat (apply elem_of_cons in Hkey as [-> | Hkey]);
    [ repeat through Hc Hr .. | inversion Hkey ].
Qed.
End TextFacts.

(** C6, as the code has it: a cell that holds text which is not a number
    makes [float] raise, and the scorer does not catch it. *)
Lemma text_cell_raises :
  predict_behav (Some Samples.text_cell) = Err ValueError.
Proof. vm_compute. reflexivity. Qed.

(** C6, amended: on a frame with distinct column labels whose seven scorer
    columns hold, in every row, nothing, [None], a boolean, a float, an
    integer within the range of floats, empty text or the ASCII text of a
    number, the scorer raises no error and returns one score per row; a
    missing, [None], [False], zero or empty-text count is read as 0; ASCII
    text that is not a number in one of the seven columns makes the scorer
    raise. *)
Theorem behav_scorer_total_on_coercible (d : DataFrame) :
  NoDup (columns d) ->
  frame_coercible d = true ->
  (exists sr,
     predict_behav (Some d) = Ok sr /\
     (empty d = false -> length (probs sr) = length (rows d))) /\
  (forall (row : Series) (key : string),
     truthy (get row key (VInt 0)) = false ->
     count_field row key = Ok 0%float) /\
  (forall (row : Series) (key s : string),
     key ∈ behav_keys -> row !! key = Some (VStr s) -> s <> "" ->
     is_ascii s = true -> FloatLiteral.parse s = None ->
     is_ok (_compute_behav_score row) = false).
Proof.
  intros _ Hd. split; [| split].
  - destruct (empty d) eqn:Hne.
    + exists no_events_result. split; [| discriminate].
      unfold predict_behav. rewrite Hne. reflexivity.
    + assert (Hall : Forall (fun it => is_ok (_compute_behav_score it.2) = true)
                            (iterrows d)).
      { unfold frame_coercible in Hd. rewrite forallb_forall in Hd.
        apply Forall_forall. intros it Hit.
        apply list_elem_of_In, Hd, FeatureFacts.read_features_ok in Hit
          as (ft & Hft).
        unfold _compute_behav_score. rewrite Hft. reflexivity. }
      destruct (LoopFacts.score_rows_total _ [] [] Hall) as ([ps rs] & Hst).
      eexists. split.
      * unfold predict_behav. rewrite Hne, Hst. reflexivity.
      * intros _. simpl.
        apply LoopFacts.score_rows_probs in Hst as (scores & -> & Hsc).
        simpl. rewrite <- (Forall2_length _ _ _ Hsc).
        apply LoopFacts.iterrows_length.
  - exact FieldFacts.count_field_falsy.
  - intros row key s Hkey Hrow Hs _.
    exact (TextFacts.compute_text _ _ _ Hkey Hrow Hs).
Qed.

Lemma behav_scorer_total_on_coercible_witness :
  exists sr,
    predict_behav (Some Samples.two_rows) = Ok sr /\
    (empty Samples.two_rows = false ->
     length (probs sr) = length (rows Samples.two_rows)).
Proof.
  refine (proj1 (behav_scorer_total_on_coercible Samples.two_rows _ _)).
  - apply (proj1 (bool_decide_eq_true _)). vm_compute. reflexivity.
  - vm_compute. reflexivity.
Defined.

(** ** Which row the reasons come from *)

(** Under the default index, the reasons returned are those of the first
    row. *)
Lemma predict_behav_default_index (d : DataFrame) (sr : ScoreResult) :
  empty d = false ->
  (rows d).*1 = range_index (length (rows d)) ->
  predict_behav (Some d) = Ok sr ->
  exists row0 rest sc,
    iterrows d = (LInt 0, row0) :: rest /\
    _compute_behav_score row0 = Ok (sc, reasons_list sr).
Proof.
  intros Hne Hidx H.
  apply (BehavFacts.predict_behav_rows _ _ Hne) in H as (rs & H & ->).
  simpl. rewrite <- LoopFacts.iterrows_labels, <- LoopFacts.iterrows_length in Hidx.
  destruct (iterrows d) as [|[idx row0] rest] eqn:Hit.
  - apply (f_equal length) in Hit.
    rewrite LoopFacts.iterrows_length in Hit.
    unfold empty in Hne. destruct (columns d), (rows d); discriminate.
  - simpl length in Hidx. rewrite LoopFacts.range_index_tail in Hidx.
    simpl in Hidx. injection Hidx as -> Hrest.
    exists row0, rest. simpl in H.
    destruct (_compute_behav_score row0) as [[sc r]|e] eqn:Hrow;
      [| discriminate H].
    simpl in H. exists sc. split; [reflexivity |].
    apply LoopFacts.score_rows_no_zero in H.
    + rewrite H. reflexivity.
    + pose proof (LoopFacts.seq_labels_nonzero 1 (length rest) Nat.lt_0_1) as Hnz.
      rewrite <- Hrest in Hnz. apply Forall_fmap in Hnz. exact Hnz.
Qed.

(** C7, as the code has it.  The loop keeps the reasons of the row whose
    index label equals 0, not of the first row: with the labels 7 and 8 no
    row qualifies and the reasons come back empty, although the first row
    alone yields the file-activity reason, and no row's own reasons are
    ever empty; with the label 0 on the second row the reasons are those of
    the second row.  Probabilities and predictions cover every row in both
    cases. *)
Theorem reasons_follow_label_zero :
  predict_behav (Some Samples.shifted_index)
  = Ok {| probs := [0.6; 0]%float; preds := [1; 0];
          threshold_used := 0.6%float; reasons_list := [] |}
  /\ (exists row0 rest,
        iterrows Samples.shifted_index = (LInt 7, row0) :: rest /\
        _compute_behav_score row0 = Ok (0.6%float, [REASON_FILE]))
  /\ (forall row sc rs, _compute_behav_score row = Ok (sc, rs) -> rs <> [])
  /\ predict_behav (Some Samples.zero_label_last)
     = Ok {| probs := [0.6; 0]%float; preds := [1; 0];
             threshold_used := 0.6%float; reasons_list := [REASON_NORMAL] |}.
Proof.
  split; [| split; [| split]].
  - vm_compute. reflexivity.
  - eexists _, _. split; [reflexivity |]. vm_compute. reflexivity.
  - intros row sc rs H. apply RuleFacts.compute_Ok in H as (ft & _ & Hout).
    change rs with (sc, rs).2. rewrite Hout.
    apply RuleFacts.score_features_reasons.
  - vm_compute. reflexivity.
Qed.

(** ** Merging the reasons *)

Module ReasonFacts.
(** [dedup_first] keeps every string once. *)
Lemma elem_of_dedup_first (l : list string) (x : string) :
  x ∈ dedup_first l <-> x ∈ l.
Proof.
  induction l as [|y l IH]; simpl; [reflexivity |].
  rewrite !elem_of_cons, list_elem_of_filter, IH.
  destruct (decide (x = y)); tauto.
Qed.

Lemma NoDup_dedup_first (l : list string) : NoDup (dedup_first l).
Proof.
  induction l as [|y l IH]; simpl; constructor.
  - rewrite list_elem_of_filter. intros [Hy _]. apply Hy. reflexivity.
  - apply NoDup_filter, IH.
Qed.

(** The loop, started with [reasons] already kept (fewer than three) and
    [seen] holding exactly those, keeps the first three of [reasons]
    followed by the new strings of the input in first-seen order. *)
Lemma soft_reasons_acc (l : list string) :
  forall (seen : gset string) (acc : list string),
    (forall x, x ∈ seen <-> x ∈ acc) ->
    (length acc < 3)%nat ->
    soft_reasons l seen acc
    = take 3 (acc ++ filter (fun y => y ∉ acc) (dedup_first l)).
Proof.
  induction l as [|r rest IH]; intros seen acc Hseen Hlen; simpl.
  - rewrite filter_nil, app_nil_r, take_ge by lia. reflexivity.
  - destruct (decide (r ∈ seen)) as [Hin | Hout].
    + assert (Hne : (length acc =? 3)%nat = false)
        by (apply Nat.eqb_neq; lia).
      rewrite Hne, (IH seen acc Hseen Hlen).
      rewrite filter_cons_False by (rewrite <- Hseen; tauto).
      rewrite list_filter_filter_l; [reflexivity |].
      intros x Hx ->. apply Hx, Hseen, Hin.
    + rewrite filter_cons_True by (rewrite <- Hseen; exact Hout).
      remember (filter (fun y => y ∉ acc)
                  (filter (fun y => y <> r) (dedup_first rest))) as tl eqn:Htl.
      rewrite (cons_middle r acc tl), app_assoc. subst tl.
      destruct (length (acc ++ [r]) =? 3)%nat eqn:Hfull.
      * apply Nat.eqb_eq in Hfull.
        rewrite take_app_length' by (symmetry; exact Hfull). reflexivity.
      * apply Nat.eqb_neq in Hfull. rewrite length_app in Hfull.
        simpl in Hfull.
        rewrite (IH ({[ r ]} ∪ seen) (acc ++ [r])).
        -- rewrite list_filter_filter. do 2 f_equal.
           apply list_filter_iff. intros x.
           rewrite elem_of_app, list_elem_of_singleton. tauto.
        -- intros x. rewrite elem_of_union, elem_of_singleton, elem_of_app,
             list_elem_of_singleton, Hseen. tauto.
        -- rewrite length_app. simpl. lia.
Qed.

(** The loop is deduplication in first-seen order cut to three. *)
Lemma soft_reasons_spec (l : list string) :
  soft_reasons l ∅ [] = take 3 (dedup_first l).
Proof.
  rewrite (soft_reasons_acc l ∅ []).
  - simpl. f_equal.
    induction (dedup_first l) as [|x d IH]; [reflexivity |].
    rewrite filter_cons_True by (rewrite elem_of_nil; tauto).
    f_equal. exact IH.
  - intros x. rewrite elem_of_empty, elem_of_nil. tauto.
  - simpl. lia.
Qed.
End ReasonFacts.

(** ** Fusion *)

Module FusionFacts.
Section WithScorers.
Variable predict_static : DataFrame -> result ScoreResult.
Variable mean : list float -> float.

(** The final probability depends on the two means only. *)
Lemma final_prob_fuse (df : DataFrame) :
  final_prob_of (combine_model_outputs predict_static mean df)
  = fuse_probs (mean_of mean (predict_static df))
               (mean_of mean (predict_behav (Some df))).
Proof.
  unfold combine_model_outputs, try_scorer, final_prob_of.
  destruct (predict_behav (Some df)) as [b|eb],
           (predict_static df) as [s|es]; reflexivity.
Qed.

(** What a successful fusion returns. *)
Lemma fuse_Ok (df : DataFrame) (p : float) (v : string) (dbg : DebugInfo) :
  combine_model_outputs predict_static mean df = Ok (p, v, dbg) ->
  fuse_probs (mean_of mean (predict_static df))
             (mean_of mean (predict_behav (Some df))) = Ok p /\
  v = verdict_of p /\
  risk_band dbg = risk_band_from_prob p /\
  reasons dbg
  = soft_reasons (reasons_of (predict_behav (Some df))
                  ++ reasons_of (predict_static df)) ∅ [].
Proof.
  unfold combine_model_outputs, try_scorer.
  destruct (predict_behav (Some df)) as [b|eb],
           (predict_static df) as [s|es]; simpl;
    intros H; try discriminate H; injection H as <- <- <-; simpl;
    rewrite ?app_nil_r; repeat split; reflexivity.
Qed.

(** Fusion raises exactly when no mean is available. *)
Lemma fuse_is_ok (df : DataFrame) :
  is_ok (combine_model_outputs predict_static mean df)
  = is_ok (predict_behav (Some df)) || is_ok (predict_static df).
Proof.
  unfold combine_model_outputs, try_scorer.
  destruct (predict_behav (Some df)) as [b|eb],
           (predict_static df) as [s|es]; reflexivity.
Qed.

Lemma fuse_both_failed (df : DataFrame) (eb es : exn) :
  predict_behav (Some df) = Err eb -> predict_static df = Err es ->
  combine_model_outputs predict_static mean df
  = Err (RuntimeError "Both models failed.").
Proof.
  intros Hb Hs. unfold combine_model_outputs, try_scorer.
  rewrite Hb, Hs. reflexivity.
Qed.
End WithScorers.

(** The verdict and the band as functions of the final probability. *)
Lemma verdict_of_cases (p : float) :
  ((0.50 <=? p)%float = true -> verdict_of p = "Malicious") /\
  ((0.50 <=? p)%float = false -> verdict_of p = "Safe").
Proof.
  unfold verdict_of, FUSION_THRESHOLD.
  split; intros ->; reflexivity.
Qed.

Lemma risk_band_cases (p : float) :
  ((p <? 0.30)%float = true -> risk_band_from_prob p = "Safe") /\
  ((0.30 <=? p)%float = true -> (p <=? 0.70)%float = true ->
     risk_band_from_prob p = "Caution") /\
  ((0.70 <? p)%float = true -> risk_band_from_prob p = "High Risk").
Proof.
  unfold risk_band_from_prob. repeat split.
  - intros ->. reflexivity.
  - intros Hlo Hhi.
    rewrite (FloatFacts.leb_true_ltb_false _ _ Hlo), Hhi. reflexivity.
  - intros Hhi.
    rewrite (FloatFacts.lt_070_not_lt_030 _ Hhi),
            (FloatFacts.ltb_true_leb_false _ _ Hhi).
    reflexivity.
Qed.

Lemma risk_band_values (p : float) :
  risk_band_from_prob p = "Safe" \/ risk_band_from_prob p = "Caution"
  \/ risk_band_from_prob p = "High Risk".
Proof.
  unfold risk_band_from_prob.
  destruct (p <? 0.30)%float; [tauto |].
  destruct (p <=? 0.70)%float; tauto.
Qed.
End FusionFacts.

(** C1: when both scorers answered, the final probability is 0.6 times the
    mean static probability plus 0.4 times the mean behavioural probability
    (means 0.8 and 0.2 give exactly 0.56); when exactly one answered, it is
    that scorer's mean. *)
Theorem fusion_final_probability
    (predict_static : DataFrame -> result ScoreResult)
    (mean : list float -> float) (df : DataFrame) :
  (forall s b,
     predict_static df = Ok s -> predict_behav (Some df) = Ok b ->
     final_prob_of (combine_model_outputs predict_static mean df)
     = Ok (0.6 * mean (probs s) + 0.4 * mean (probs b))%float /\
     (mean (probs s) = 0.8%float -> mean (probs b) = 0.2%float ->
      final_prob_of (combine_model_outputs predict_static mean df)
      = Ok 0.56%float)) /\
  (forall s eb,
     predict_static df = Ok s -> predict_behav (Some df) = Err eb ->
     final_prob_of (combine_model_outputs predict_static mean df)
     = Ok (mean (probs s))) /\
  (forall es b,
     predict_static df = Err es -> predict_behav (Some df) = Ok b ->
     final_prob_of (combine_model_outputs predict_static mean df)
     = Ok (mean (probs b))).
Proof.
  rewrite FusionFacts.final_prob_fuse. split; [| split].
  - intros s b -> ->. split; [reflexivity |].
    intros Hs Hb. simpl. rewrite Hs, Hb. vm_compute. reflexivity.
  - intros s eb -> ->. reflexivity.
  - intros es b -> ->. reflexivity.
Qed.

Lemma fusion_final_probability_witness :
  final_prob_of
    (combine_model_outputs Samples.static_08 Samples.mean_left Samples.proc_only)
  = Ok 0.56%float
  /\ final_prob_of
       (combine_model_outputs Samples.static_08 Samples.mean_left
          Samples.text_cell)
     = Ok 0.8%float
  /\ final_prob_of
       (combine_model_outputs Samples.static_down Samples.mean_left
          Samples.proc_only)
     = Ok 0.2%float.
Proof.
  pose proof (fusion_final_probability
                Samples.static_08 Samples.mean_left Samples.proc_only) as (H & _).
  pose proof (fusion_final_probability
                Samples.static_08 Samples.mean_left Samples.text_cell) as (_ & H1 & _).
  pose proof (fusion_final_probability
                Samples.static_down Samples.mean_left Samples.proc_only) as (_ & _ & H2).
  set (s := {| probs := [0.8%float]; preds := [1]; threshold_used := 0.5;
               reasons_list := ["B"; "C"; "D"] |}).
  set (b := {| probs := [0.2%float]; preds := [0]; threshold_used := 0.6;
               reasons_list := [REASON_PROC] |}).
  split; [| split].
  - refine (proj2 (H s b _ _) _ _); vm_compute; reflexivity.
  - rewrite (H1 s ValueError) by (vm_compute; reflexivity).
    vm_compute. reflexivity.
  - rewrite (H2 (OtherError "model file not found") b)
      by (vm_compute; reflexivity).
    vm_compute. reflexivity.
Defined.

(** C2: the verdict of a fusion is "Malicious" when the final probability
    is at least 0.50 and "Safe" otherwise; the band is "Safe" below 0.30,
    "Caution" from 0.30 to 0.70 inclusive and "High Risk" above 0.70; the
    probability 0.30 itself is banded "Caution". *)
Theorem fusion_verdict_and_band
    (predict_static : DataFrame -> result ScoreResult)
    (mean : list float -> float) (df : DataFrame)
    (p : float) (v : string) (dbg : DebugInfo) :
  combine_model_outputs predict_static mean df = Ok (p, v, dbg) ->
  ((0.50 <=? p)%float = true -> v = "Malicious") /\
  ((0.50 <=? p)%float = false -> v = "Safe") /\
  ((p <? 0.30)%float = true -> risk_band dbg = "Safe") /\
  ((0.30 <=? p)%float = true -> (p <=? 0.70)%float = true ->
     risk_band dbg = "Caution") /\
  ((0.70 <? p)%float = true -> risk_band dbg = "High Risk") /\
  risk_band_from_prob 0.30 = "Caution".
Proof.
  intros H. apply FusionFacts.fuse_Ok in H as (_ & -> & -> & _).
  destruct (FusionFacts.verdict_of_cases p) as (Hm & Hs).
  destruct (FusionFacts.risk_band_cases p) as (Hlo & Hmid & Hhi).
  repeat split; try assumption.
Qed.

Lemma fusion_verdict_and_band_witness :
  exists dbg,
    combine_model_outputs Samples.static_08 Samples.mean_left Samples.proc_only
    = Ok (0.56%float, "Malicious", dbg)
    /\ risk_band dbg = "Caution".
Proof.
  eexists. split; [vm_compute; reflexivity |].
  eapply (fusion_verdict_and_band
            Samples.static_08 Samples.mean_left Samples.proc_only 0.56);
    vm_compute; reflexivity.
Defined.

(** C10: a fusion whose verdict is "Malicious" never bands the file "Safe":
    the band is then "Caution" or "High Risk". *)
Theorem malicious_is_never_banded_safe
    (predict_static : DataFrame -> result ScoreResult)
    (mean : list float -> float) (df : DataFrame)
    (p : float) (v : string) (dbg : DebugInfo) :
  combine_model_outputs predict_static mean df = Ok (p, v, dbg) ->
  v = "Malicious" ->
  risk_band dbg <> "Safe" /\
  (risk_band dbg = "Caution" \/ risk_band dbg = "High Risk").
Proof.
  intros H Hv. apply FusionFacts.fuse_Ok in H as (_ & -> & -> & _).
  assert (Hp : (0.50 <=? p)%float = true).
  { unfold verdict_of, FUSION_THRESHOLD in Hv.
    destruct (0.50 <=? p)%float; [reflexivity | discriminate Hv]. }
  assert (Hband : risk_band_from_prob p <> "Safe").
  { unfold risk_band_from_prob.
    rewrite (FloatFacts.le_half_not_lt_030 _ Hp).
    destruct (p <=? 0.70)%float; discriminate. }
  split; [exact Hband |].
  destruct (FusionFacts.risk_band_values p) as [Hs | H]; [| exact H].
  contradiction.
Qed.

Lemma malicious_is_never_banded_safe_witness :
  exists dbg,
    combine_model_outputs Samples.static_08 Samples.mean_left Samples.proc_only
    = Ok (0.56%float, "Malicious", dbg)
    /\ risk_band dbg <> "Safe".
Proof.
  eexists. split; [vm_compute; reflexivity |].
  eapply (malicious_is_never_banded_safe
            Samples.static_08 Samples.mean_left Samples.proc_only 0.56
            "Malicious");
    vm_compute; reflexivity.
Defined.

(** C3: the fused reasons are the behavioural reasons followed by the
    static reasons, deduplicated by string equality keeping first
    occurrences in order, cut to the first three; ["A";"B"] and
    ["B";"C";"D"] fuse to ["A";"B";"C"]. *)
Theorem fused_reasons_dedup_first_three
    (predict_static : DataFrame -> result ScoreResult)
    (mean : list float -> float) (df : DataFrame)
    (p : float) (v : string) (dbg : DebugInfo) :
  combine_model_outputs predict_static mean df = Ok (p, v, dbg) ->
  reasons dbg
  = take 3 (dedup_first (reasons_of (predict_behav (Some df))
                         ++ reasons_of (predict_static df))) /\
  (length (reasons dbg) <= 3)%nat /\
  NoDup (reasons dbg) /\
  soft_reasons (["A"; "B"] ++ ["B"; "C"; "D"]) ∅ [] = ["A"; "B"; "C"].
Proof.
  intros H. apply FusionFacts.fuse_Ok in H as (_ & _ & _ & ->).
  rewrite ReasonFacts.soft_reasons_spec. repeat split.
  - rewrite length_take. lia.
  - eapply sublist_NoDup; [| apply sublist_take].
    apply ReasonFacts.NoDup_dedup_first.
Qed.

Lemma fused_reasons_dedup_first_three_witness :
  exists dbg,
    combine_model_outputs Samples.static_08 Samples.mean_left Samples.two_rows
    = Ok (0.72%float, "Malicious", dbg)
    /\ reasons dbg = [REASON_FILE; REASON_PROC; "B"].
Proof.
  eexists. split; [vm_compute; reflexivity |].
  refine (eq_trans
            (proj1 (fused_reasons_dedup_first_three
                      Samples.static_08 Samples.mean_left Samples.two_rows
                      0.72 "Malicious" _ _)) _);
    vm_compute; reflexivity.
Defined.

(** C4: fusion raises, with "Both models failed.", exactly when both
    scorers failed; it then returns no probability at all, and it returns
    a result whenever one of them answered. *)
Theorem fusion_fails_iff_both_fail
    (predict_static : DataFrame -> result ScoreResult)
    (mean : list float -> float) (df : DataFrame) :
  (is_ok (combine_model_outputs predict_static mean df) = false <->
   is_ok (predict_behav (Some df)) = false /\
   is_ok (predict_static df) = false) /\
  (forall e,
     combine_model_outputs predict_static mean df = Err e ->
     e = RuntimeError "Both models failed.") /\
  (is_ok (predict_behav (Some df)) = true \/
   is_ok (predict_static df) = true ->
   exists p v dbg,
     combine_model_outputs predict_static mean df = Ok (p, v, dbg)).
Proof.
  split; [| split].
  - rewrite FusionFacts.fuse_is_ok. apply orb_false_iff.
  - intros e He.
    assert (Hno : is_ok (combine_model_outputs predict_static mean df) = false)
      by (rewrite He; reflexivity).
    rewrite FusionFacts.fuse_is_ok in Hno.
    apply orb_false_iff in Hno as (Hb & Hs).
    apply ResultFacts.is_ok_false in Hb as (eb & Hb).
    apply ResultFacts.is_ok_false in Hs as (es & Hs).
    rewrite (FusionFacts.fuse_both_failed _ mean _ _ _ Hb Hs) in He.
    injection He as <-. reflexivity.
  - intros Hone.
    assert (Hyes : is_ok (combine_model_outputs predict_static mean df) = true).
    { rewrite FusionFacts.fuse_is_ok. apply orb_true_iff. exact Hone. }
    apply ResultFacts.is_ok_true in Hyes as ([[p v] dbg] & Hyes).
    exists p, v, dbg. exact Hyes.
Qed.

Lemma fusion_fails_iff_both_fail_witness :
  combine_model_outputs Samples.static_down Samples.mean_left Samples.text_cell
  = Err (RuntimeError "Both models failed.")
  /\ is_ok (combine_model_outputs Samples.static_down Samples.mean_left
              Samples.proc_only) = true.
Proof.
  pose proof (fusion_fails_iff_both_fail
                Samples.static_down Samples.mean_left Samples.text_cell)
    as (_ & Herr & _).
  pose proof (fusion_fails_iff_both_fail
                Samples.static_down Samples.mean_left Samples.proc_only)
    as (_ & _ & Hok).
  split.
  - destruct (combine_model_outputs Samples.static_down Samples.mean_left
                Samples.text_cell) as [out|e] eqn:Hout.
    + vm_compute in Hout. discriminate Hout.
    + rewrite (Herr e eq_refl). reflexivity.
  - destruct Hok as (p & v & dbg & ->); [| reflexivity].
    left. vm_compute. reflexivity.
Defined.

(** * Further properties of the behavioural scorer *)

Module RuleMore.
(** The score reaches the threshold exactly when the file rule fires: the
    two other rules weigh 0.4 together. *)
Lemma threshold_is_file_rule (ft : Features) :
  (BEHAV_THRESHOLD <=? rule_score ft)%float = file_rule ft.
Proof.
  unfold rule_score, file_rule, BEHAV_THRESHOLD.
  generalize ((1000 <? n_file ft) || (0.5 <? ratio_file ft))%float.
  generalize ((5 <? n_net ft) || (0.02 <? ratio_net ft))%float.
  generalize ((10 <? n_proc ft) || (0.02 <? ratio_proc ft))%float.
  intros [] [] []; vm_compute; reflexivity.
Qed.

Lemma score_features_reasons_for (ft : Features) :
  (score_features ft).2
  = reasons_for (file_rule ft) (net_rule ft) (proc_rule ft).
Proof.
  unfold score_features.
  destruct (file_rule ft), (net_rule ft), (proc_rule ft); reflexivity.
Qed.

Lemma elem_of_decide (x : string) (l : list string) :
  x ∈ l <-> bool_decide (x ∈ l) = true.
Proof. symmetry. apply bool_decide_eq_true. Qed.

Lemma float_eq_decide (x y : float) :
  x = y -> (x =? y)%float = (y =? y)%float.
Proof. intros ->. reflexivity. Qed.

Lemma reasons_for_props (file net proc : bool) :
  (REASON_FILE ∈ reasons_for file net proc <-> file = true) /\
  (REASON_NET ∈ reasons_for file net proc <-> net = true) /\
  (REASON_PROC ∈ reasons_for file net proc <-> proc = true) /\
  (REASON_NORMAL ∈ reasons_for file net proc <->
   file = false /\ net = false /\ proc = false) /\
  NoDup (reasons_for file net proc) /\
  (1 <= length (reasons_for file net proc) <= 3)%nat.
Proof.
  assert (Hnd : forall l : list string, bool_decide (NoDup l) = true -> NoDup l)
    by (intros l; apply bool_decide_eq_true).
  destruct file, net, proc; vm_compute reasons_for;
    (split; [| split; [| split; [| split; [| split]]]]);
    first [ rewrite elem_of_decide; vm_compute; intuition congruence
          | apply Hnd; vm_compute; reflexivity
          | simpl; lia ].
Qed.

(** The score is 0 exactly when no rule fires. *)
Lemma rule_score_zero (ft : Features) :
  rule_score ft = 0%float <->
  file_rule ft = false /\ net_rule ft = false /\ proc_rule ft = false.
Proof.
  unfold rule_score, file_rule, net_rule, proc_rule.
  generalize ((1000 <? n_file ft) || (0.5 <? ratio_file ft))%float.
  generalize ((5 <? n_net ft) || (0.02 <? ratio_net ft))%float.
  generalize ((10 <? n_proc ft) || (0.02 <? ratio_proc ft))%float.
  intros [] [] []; vm_compute; split;
    try (intros (? & ? & ?); congruence); try tauto;
    intros H; apply (f_equal (fun x => (x =? 0)%float)) in H;
    vm_compute in H; discriminate H.
Qed.
End RuleMore.

(** X1: a row is predicted malicious exactly when its file-activity rule
    fires (more than 1000 file creations, or a file-creation ratio above
    0.5); the network and process rules never change a prediction. *)
Theorem prediction_is_the_file_rule (d : DataFrame) (sr : ScoreResult) :
  empty d = false ->
  predict_behav (Some d) = Ok sr ->
  Forall2 (fun it y => exists ft,
               read_features it.2 = Ok ft /\
               (y = 1 <-> file_rule ft = true) /\
               (y = 0 <-> file_rule ft = false))
          (iterrows d) (preds sr).
Proof.
  intros Hne H.
  rewrite (BehavFacts.predict_behav_preds _ _ H).
  apply (BehavFacts.predict_behav_rows _ _ Hne) in H as (rs & H & _).
  apply LoopFacts.score_rows_probs in H as (scores & -> & Hall). simpl.
  unfold threshold_preds. apply Forall2_fmap_r.
  induction Hall as [|it sc its scs (r & Hsc) _ IH]; constructor;
    [| exact IH].
  apply RuleFacts.compute_Ok_score in Hsc as (ft & Hft & ->).
  exists ft. split; [exact Hft |].
  rewrite RuleMore.threshold_is_file_rule.
  destruct (file_rule ft); split; split; congruence.
Qed.

Lemma prediction_is_the_file_rule_witness :
  Forall2 (fun it y => exists ft,
               read_features it.2 = Ok ft /\
               (y = 1 <-> file_rule ft = true) /\
               (y = 0 <-> file_rule ft = false))
          (iterrows Samples.two_rows) [1; 0].
Proof.
  refine (prediction_is_the_file_rule Samples.two_rows
            {| probs := [0.8; 0.4]%float; preds := [1; 0];
               threshold_used := 0.6%float;
               reasons_list := [REASON_FILE; REASON_PROC] |} _ _);
    vm_compute; reflexivity.
Defined.

(** X2: the reasons of a row name exactly the rules that fired, in the
    order file, network, process; the normal-range sentence appears exactly
    when the score is 0; the reasons are distinct and number one to
    three. *)
Theorem row_reasons_name_the_fired_rules
    (row : Series) (sc : float) (rs : list string) :
  _compute_behav_score row = Ok (sc, rs) ->
  exists ft,
    read_features row = Ok ft /\
    rs = reasons_for (file_rule ft) (net_rule ft) (proc_rule ft) /\
    (REASON_FILE ∈ rs <-> file_rule ft = true) /\
    (REASON_NET ∈ rs <-> net_rule ft = true) /\
    (REASON_PROC ∈ rs <-> proc_rule ft = true) /\
    (REASON_NORMAL ∈ rs <-> sc = 0%float) /\
    NoDup rs /\ (1 <= length rs <= 3)%nat.
Proof.
  intros H.
  pose proof (RuleFacts.compute_Ok_score _ _ _ H) as (ft & Hft & ->).
  apply RuleFacts.compute_Ok in H as (ft' & Hft' & Hout).
  rewrite Hft in Hft'. injection Hft' as <-.
  assert (Hrs : rs = reasons_for (file_rule ft) (net_rule ft) (proc_rule ft)).
  { rewrite <- RuleMore.score_features_reasons_for, <- Hout. reflexivity. }
  exists ft. split; [exact Hft |]. split; [exact Hrs |]. rewrite Hrs.
  destruct (RuleMore.reasons_for_props
              (file_rule ft) (net_rule ft) (proc_rule ft))
    as (Hf & Hn & Hp & Hnone & Hnd & Hlen).
  rewrite RuleMore.rule_score_zero. tauto.
Qed.

Lemma row_reasons_name_the_fired_rules_witness :
  exists ft,
    read_features Samples.idle_row = Ok ft /\
    [REASON_FILE; REASON_NET] = reasons_for (file_rule ft) (net_rule ft) (proc_rule ft) /\
    (REASON_FILE ∈ [REASON_FILE; REASON_NET] <-> file_rule ft = true) /\
    (REASON_NET ∈ [REASON_FILE; REASON_NET] <-> net_rule ft = true) /\
    (REASON_PROC ∈ [REASON_FILE; REASON_NET] <-> proc_rule ft = true) /\
    (REASON_NORMAL ∈ [REASON_FILE; REASON_NET] <-> 0.8%float = 0%float) /\
    NoDup [REASON_FILE; REASON_NET] /\
    (1 <= length [REASON_FILE; REASON_NET] <= 3)%nat.
Proof.
  refine (row_reasons_name_the_fired_rules Samples.idle_row 0.8
            [REASON_FILE; REASON_NET] _).
  vm_compute. reflexivity.
Defined.

Module FeatureMore.
(** What a successful read of the features says of each field. *)
Lemma read_features_Ok (row : Series) (ft : Features) :
  read_features row = Ok ft ->
  count_field row "total_events" = Ok (total ft) /\
  count_field row "n_proc_create" = Ok (n_proc ft) /\
  count_field row "n_file_create" = Ok (n_file ft) /\
  count_field row "n_net_conn" = Ok (n_net ft) /\
  ratio_field row "ratio_proc_create" (n_proc ft) (total ft)
  = Ok (ratio_proc ft) /\
  ratio_field row "ratio_file_create" (n_file ft) (total ft)
  = Ok (ratio_file ft) /\
  ratio_field row "ratio_net_conn" (n_net ft) (total ft)
  = Ok (ratio_net ft).
Proof.
  unfold read_features.
  destruct (count_field row "total_events") as [t|e]; [| discriminate].
  destruct (count_field row "n_proc_create") as [np|e]; [| discriminate].
  destruct (count_field row "n_file_create") as [nf|e]; [| discriminate].
  destruct (count_field row "n_net_conn") as [nn|e]; [| discriminate].
  simpl.
  destruct (ratio_field row "ratio_proc_create" np t) as [rp|e] eqn:Hp;
    [| discriminate].
  destruct (ratio_field row "ratio_file_create" nf t) as [rf|e] eqn:Hf;
    [| discriminate].
  destruct (ratio_field row "ratio_net_conn" nn t) as [rn|e] eqn:Hn;
    [| discriminate].
  simpl. intros [= <-]. simpl. repeat split; assumption.
Qed.

(** A ratio cell holding a float other than zero is used as it stands. *)
Lemma ratio_field_supplied (row : Series) (key : string) (r n t : float) :
  row !! key = Some (VFloat r) -> (r =? 0)%float = false ->
  ratio_field row key n t = Ok r.
Proof.
  intros Hk Hr.
  assert (Hg : get row key (VInt 0) = VFloat r)
    by (unfold get; rewrite Hk; reflexivity).
  rewrite FieldFacts.ratio_field_truthy; rewrite Hg; simpl.
  - reflexivity.
  - rewrite Hr. reflexivity.
Qed.
End FeatureMore.

(** X3: a ratio column holding a float other than zero (NaN included) is
    taken as it stands, whatever the counts say; a ratio that is missing,
    [None], zero or empty is recomputed as count / total_events when
    total_events is positive, and is 0 otherwise. *)
Theorem supplied_ratio_wins_zero_is_recomputed (row : Series) (ft : Features) :
  read_features row = Ok ft ->
  (forall r, row !! "ratio_proc_create" = Some (VFloat r) ->
             (r =? 0)%float = false -> ratio_proc ft = r) /\
  (forall r, row !! "ratio_file_create" = Some (VFloat r) ->
             (r =? 0)%float = false -> ratio_file ft = r) /\
  (forall r, row !! "ratio_net_conn" = Some (VFloat r) ->
             (r =? 0)%float = false -> ratio_net ft = r) /\
  (truthy (get row "ratio_proc_create" (VInt 0)) = false ->
   ratio_proc ft
   = if (0 <? total ft)%float then (n_proc ft / total ft)%float else 0%float) /\
  (truthy (get row "ratio_file_create" (VInt 0)) = false ->
   ratio_file ft
   = if (0 <? total ft)%float then (n_file ft / total ft)%float else 0%float) /\
  (truthy (get row "ratio_net_conn" (VInt 0)) = false ->
   ratio_net ft
   = if (0 <? total ft)%float then (n_net ft / total ft)%float else 0%float).
Proof.
  intros H.
  apply FeatureMore.read_features_Ok in H as (_ & _ & _ & _ & Hp & Hf & Hn).
  repeat split.
  - intros r Hk Hr.
    rewrite (FeatureMore.ratio_field_supplied _ _ _ _ _ Hk Hr) in Hp.
    injection Hp as <-. reflexivity.
  - intros r Hk Hr.
    rewrite (FeatureMore.ratio_field_supplied _ _ _ _ _ Hk Hr) in Hf.
    injection Hf as <-. reflexivity.
  - intros r Hk Hr.
    rewrite (FeatureMore.ratio_field_supplied _ _ _ _ _ Hk Hr) in Hn.
    injection Hn as <-. reflexivity.
  - intros Hz. rewrite (FieldFacts.ratio_field_falsy _ _ _ _ Hz) in Hp.
    injection Hp as <-. reflexivity.
  - intros Hz. rewrite (FieldFacts.ratio_field_falsy _ _ _ _ Hz) in Hf.
    injection Hf as <-. reflexivity.
  - intros Hz. rewrite (FieldFacts.ratio_field_falsy _ _ _ _ Hz) in Hn.
    injection Hn as <-. reflexivity.
Qed.

Lemma supplied_ratio_wins_zero_is_recomputed_witness :
  exists ft,
    read_features MoreSamples.inflated_ratio = Ok ft /\
    ratio_file ft = 0.9%float /\ ratio_proc ft = 0%float /\
    file_rule ft = true.
Proof.
  set (ft := {| total := 100; n_proc := 0; n_file := 10; n_net := 0;
                ratio_proc := 0; ratio_file := 0.9; ratio_net := 0 |}).
  assert (H : read_features MoreSamples.inflated_ratio = Ok ft)
    by (vm_compute; reflexivity).
  pose proof (supplied_ratio_wins_zero_is_recomputed _ _ H)
    as (_ & Hf & _ & Hp & _).
  exists ft. split; [exact H |]. split; [| split].
  - apply (Hf 0.9%float); vm_compute; reflexivity.
  - rewrite Hp; vm_compute; reflexivity.
  - vm_compute. reflexivity.
Defined.

(** * Further properties of the fusion *)

Module ReasonMore.
Lemma filter_all {A} (P : A -> Prop) `{!forall x, Decision (P x)}
    (l : list A) :
  (forall x, x ∈ l -> P x) -> filter P l = l.
Proof.
  induction l as [|x l IH]; intros Hall; [reflexivity |].
  rewrite filter_cons_True by (apply Hall; left).
  f_equal. apply IH. intros y Hy. apply Hall. right. exact Hy.
Qed.

(** A list without repetition goes through deduplication unchanged, and
    shields what follows from its own strings. *)
Lemma dedup_first_app (l k : list string) :
  NoDup l ->
  dedup_first (l ++ k) = l ++ filter (fun y => y ∉ l) (dedup_first k).
Proof.
  induction l as [|x l IH]; intros Hnd; simpl.
  - symmetry. apply filter_all. intros y _. apply not_elem_of_nil.
  - apply NoDup_cons in Hnd as (Hx & Hnd). rewrite (IH Hnd).
    rewrite filter_app, list_filter_filter. f_equal. f_equal.
    + apply filter_all. intros y Hy ->. exact (Hx Hy).
    + apply list_filter_iff. intros y. rewrite not_elem_of_cons. tauto.
Qed.

Lemma soft_reasons_short (l : list string) :
  NoDup l -> (length l <= 3)%nat -> soft_reasons l ∅ [] = l.
Proof.
  intros Hnd Hlen. rewrite ReasonFacts.soft_reasons_spec.
  rewrite <- (app_nil_r l) at 1. rewrite (dedup_first_app l [] Hnd).
  simpl. rewrite filter_nil, app_nil_r. apply take_ge. exact Hlen.
Qed.

(** The reasons the loop ends with: those it started with, or those of one
    of the rows. *)
Lemma score_rows_reasons (its : list (label * Series)) :
  forall acc rf ps rs,
    score_rows its acc rf = Ok (ps, rs) ->
    rs = rf \/ exists it sc, it ∈ its /\ _compute_behav_score it.2 = Ok (sc, rs).
Proof.
  induction its as [|[idx row] its IH]; intros acc rf ps rs H; simpl in H.
  - injection H as _ <-. left. reflexivity.
  - destruct (_compute_behav_score row) as [[sc r]|e] eqn:Hrow;
      [| discriminate H].
    simpl in H. apply IH in H as [-> | (it & sc' & Hit & Hsc)].
    + destruct (label_is_zero idx); [| left; reflexivity].
      right. exists (idx, row), sc. split; [left | exact Hrow].
    + right. exists it, sc'. split; [right; exact Hit | exact Hsc].
Qed.

(** The behavioural scorer returns at most three distinct reasons. *)
Lemma predict_behav_reasons (df : option DataFrame) (sr : ScoreResult) :
  predict_behav df = Ok sr ->
  NoDup (reasons_list sr) /\ (length (reasons_list sr) <= 3)%nat.
Proof.
  assert (Hone : NoDup [REASON_NO_EVENTS] /\ (length [REASON_NO_EVENTS] <= 3)%nat).
  { split; [apply NoDup_singleton | simpl; lia]. }
  destruct df as [d|]; [destruct (empty d) eqn:Hne |].
  - unfold predict_behav. rewrite Hne. intros [= <-]. exact Hone.
  - intros H. apply (BehavFacts.predict_behav_rows _ _ Hne) in H as (rs & H & ->).
    simpl. apply score_rows_reasons in H as [-> | (it & sc & _ & Hsc)].
    + split; [apply NoDup_nil_2 | simpl; lia].
    + apply RuleFacts.compute_Ok in Hsc as (ft & _ & Hout).
      assert (Hrs : rs = (score_features ft).2) by (rewrite <- Hout; reflexivity).
      rewrite Hrs, RuleMore.score_features_reasons_for.
      destruct (RuleMore.reasons_for_props
                  (file_rule ft) (net_rule ft) (proc_rule ft))
        as (_ & _ & _ & _ & Hnd & Hlen).
      split; [exact Hnd | lia].
  - intros [= <-]. exact Hone.
Qed.
End ReasonMore.

(** X4: when the behavioural scorer answered, its reasons open the fused
    reasons, unchanged and in order; with three behavioural reasons no
    static reason is shown; without a static answer the fused reasons are
    the behavioural ones; and every fused reason comes from one of the two
    scorers. *)
Theorem behavioural_reasons_lead
    (predict_static : DataFrame -> result ScoreResult)
    (mean : list float -> float) (df : DataFrame)
    (p : float) (v : string) (dbg : DebugInfo) (b : ScoreResult) :
  combine_model_outputs predict_static mean df = Ok (p, v, dbg) ->
  predict_behav (Some df) = Ok b ->
  reasons_list b `prefix_of` reasons dbg /\
  (length (reasons_list b) = 3%nat -> reasons dbg = reasons_list b) /\
  (is_ok (predict_static df) = false -> reasons dbg = reasons_list b) /\
  (forall r, r ∈ reasons dbg ->
             r ∈ reasons_list b \/ r ∈ reasons_of (predict_static df)).
Proof.
  intros H Hb. apply FusionFacts.fuse_Ok in H as (_ & _ & _ & ->).
  destruct (ReasonMore.predict_behav_reasons _ _ Hb) as (Hnd & Hlen).
  rewrite Hb. simpl reasons_of at 1. split; [| split; [| split]].
  - rewrite ReasonFacts.soft_reasons_spec,
      (ReasonMore.dedup_first_app _ _ Hnd), take_app_ge by exact Hlen.
    eexists. reflexivity.
  - intros H3.
    rewrite ReasonFacts.soft_reasons_spec,
      (ReasonMore.dedup_first_app _ _ Hnd), take_app_ge by exact Hlen.
    rewrite H3. simpl. apply app_nil_r.
  - intros Hs. apply ResultFacts.is_ok_false in Hs as (es & ->). simpl.
    rewrite app_nil_r. exact (ReasonMore.soft_reasons_short _ Hnd Hlen).
  - intros r Hr. rewrite ReasonFacts.soft_reasons_spec in Hr.
    pose proof (elem_of_sublist _ _ _ Hr (sublist_take _ _)) as Hr'.
    apply ReasonFacts.elem_of_dedup_first, elem_of_app in Hr'. exact Hr'.
Qed.

Lemma behavioural_reasons_lead_witness :
  exists dbg,
    combine_model_outputs Samples.static_08 Samples.mean_left Samples.two_rows
    = Ok (0.72%float, "Malicious", dbg)
    /\ [REASON_FILE; REASON_PROC] `prefix_of` reasons dbg.
Proof.
  eexists. split; [vm_compute; reflexivity |].
  refine (proj1 (behavioural_reasons_lead
                   Samples.static_08 Samples.mean_left Samples.two_rows
                   0.72 "Malicious" _
                   {| probs := [0.8; 0.4]%float; preds := [1; 0];
                      threshold_used := 0.6%float;
                      reasons_list := [REASON_FILE; REASON_PROC] |} _ _));
    vm_compute; reflexivity.
Defined.

(** * The order of binary64 numbers *)

Module FloatOrder.
Ltac positive_compare :=
  repeat match goal with
  | |- context [Pos.compare_cont Eq ?a ?b] =>
      change (Pos.compare_cont Eq a b) with (Pos.compare a b)
  | H : context [Pos.compare_cont Eq ?a ?b] |- _ =>
      change (Pos.compare_cont Eq a b) with (Pos.compare a b) in H
  end.

(** Every comparison in sight is split into its three outcomes. *)
Ltac compare_cases :=
  positive_compare;
  repeat match goal with
  | H : context [Z.compare ?a ?b] |- _ =>
      destruct (Z.compare_spec a b); simpl in H; try discriminate H
  | H : context [Pos.compare ?a ?b] |- _ =>
      destruct (Pos.compare_spec a b); simpl in H; try discriminate H
  end;
  repeat match goal with
  | |- context [Z.compare ?a ?b] =>
      destruct (Z.compare_spec a b); simpl; try lia
  | |- context [Pos.compare ?a ?b] =>
      destruct (Pos.compare_spec a b); simpl; try lia
  end; try reflexivity; try lia.

Lemma SFleb_trans (x y z : spec_float) :
  SFleb x y = true -> SFleb y z = true -> SFleb x z = true.
Proof.
  unfold SFleb.
  destruct x as [[]|[]| |[] m1 e1], y as [[]|[]| |[] m2 e2],
           z as [[]|[]| |[] m3 e3];
    unfold SFcompare; try (intros; reflexivity); try discriminate;
    try (intros _; discriminate).
  all: intros H1 H2; compare_cases.
Qed.

Lemma SFleb_ltb_trans (x y z : spec_float) :
  SFleb x y = true -> SFltb y z = true -> SFltb x z = true.
Proof.
  unfold SFleb, SFltb.
  destruct x as [[]|[]| |[] m1 e1], y as [[]|[]| |[] m2 e2],
           z as [[]|[]| |[] m3 e3];
    unfold SFcompare; try (intros; reflexivity); try discriminate;
    try (intros _; discriminate).
  all: intros H1 H2; compare_cases.
Qed.

(** Two numbers that are not NaN are comparable. *)
Lemma SFleb_total (x y : spec_float) :
  SFeqb x x = true -> SFeqb y y = true ->
  SFleb x y = false -> SFltb y x = true.
Proof.
  unfold SFleb, SFltb, SFeqb.
  destruct x as [[]|[]| |[] m1 e1], y as [[]|[]| |[] m2 e2];
    unfold SFcompare; try (intros; reflexivity); try discriminate;
    try (intros _; discriminate); try (intros _ _; discriminate).
  all: intros _ _ H; compare_cases.
Qed.

(** A number that differs from itself compares false with everything. *)
Lemma SFnan_compare (x y : spec_float) :
  SFeqb x x = false ->
  SFleb x y = false /\ SFltb x y = false /\
  SFleb y x = false /\ SFltb y x = false.
Proof.
  unfold SFleb, SFltb, SFeqb.
  destruct x as [[]|[]| |[] m1 e1]; unfold SFcompare at 1;
    try discriminate.
  - intros _. destruct y as [[]|[]| |[] m2 e2]; repeat split; reflexivity.
  - rewrite Z.compare_refl. positive_compare. rewrite Pos.compare_refl.
    discriminate.
  - rewrite Z.compare_refl. positive_compare. rewrite Pos.compare_refl.
    discriminate.
Qed.

Lemma leb_trans (x y z : float) :
  (x <=? y)%float = true -> (y <=? z)%float = true -> (x <=? z)%float = true.
Proof. rewrite !leb_spec. apply SFleb_trans. Qed.

Lemma leb_ltb_trans (x y z : float) :
  (x <=? y)%float = true -> (y <? z)%float = true -> (x <? z)%float = true.
Proof. rewrite !leb_spec, !ltb_spec. apply SFleb_ltb_trans. Qed.

Lemma leb_total (x y : float) :
  (x =? x)%float = true -> (y =? y)%float = true ->
  (x <=? y)%float = false -> (y <? x)%float = true.
Proof.
  rewrite !leb_spec, !ltb_spec, !FloatAxioms.eqb_spec. apply SFleb_total.
Qed.

Lemma nan_compare (x y : float) :
  (x =? x)%float = false ->
  (x <=? y)%float = false /\ (x <? y)%float = false /\
  (y <=? x)%float = false /\ (y <? x)%float = false.
Proof.
  rewrite !leb_spec, !ltb_spec, !FloatAxioms.eqb_spec. apply SFnan_compare.
Qed.

(** A strict inequality is a large one. *)
Lemma ltb_leb (x y : float) :
  (x <? y)%float = true -> (x <=? y)%float = true.
Proof.
  rewrite leb_spec, ltb_spec. unfold SFleb, SFltb.
  destruct (SFcompare (Prim2SF x) (Prim2SF y)) as [[]|]; congruence.
Qed.
End FloatOrder.

(** X5: band and verdict agree.  A file banded "Safe" is never judged
    "Malicious"; a file banded "High Risk" is judged "Malicious" unless its
    probability is NaN; a NaN probability is judged "Safe" and banded
    "High Risk". *)
Theorem band_and_verdict_agree (p : float) :
  (risk_band_from_prob p = "Safe" -> verdict_of p = "Safe") /\
  (risk_band_from_prob p = "High Risk" -> (p =? p)%float = true ->
   verdict_of p = "Malicious") /\
  ((p =? p)%float = false ->
   verdict_of p = "Safe" /\ risk_band_from_prob p = "High Risk").
Proof.
  unfold risk_band_from_prob, verdict_of, FUSION_THRESHOLD.
  split; [| split].
  - destruct (p <? 0.30)%float eqn:Hlo.
    + intros _. destruct (0.50 <=? p)%float eqn:Hv; [| reflexivity].
      rewrite (FloatFacts.le_half_not_lt_030 _ Hv) in Hlo. discriminate Hlo.
    + destruct (p <=? 0.70)%float; discriminate.
  - destruct (p <? 0.30)%float; [discriminate |].
    destruct (p <=? 0.70)%float eqn:Hhi; [discriminate |].
    intros _ Hp.
    assert (H7 : (0.70 <? p)%float = true)
      by (apply FloatOrder.leb_total; [exact Hp | reflexivity | exact Hhi]).
    rewrite (FloatOrder.leb_trans 0.50 0.70 p);
      [reflexivity | reflexivity | apply FloatOrder.ltb_leb, H7].
  - intros Hnan.
    destruct (FloatOrder.nan_compare p 0.30 Hnan) as (_ & -> & _).
    destruct (FloatOrder.nan_compare p 0.70 Hnan) as (-> & _).
    destruct (FloatOrder.nan_compare p 0.50 Hnan) as (_ & _ & -> & _).
    split; reflexivity.
Qed.

Lemma band_and_verdict_agree_witness :
  verdict_of 0.2 = "Safe" /\ verdict_of 0.9 = "Malicious"
  /\ verdict_of nan = "Safe" /\ risk_band_from_prob nan = "High Risk".
Proof.
  destruct (band_and_verdict_agree 0.2) as (Hs & _).
  destruct (band_and_verdict_agree 0.9) as (_ & Hh & _).
  destruct (band_and_verdict_agree nan) as (_ & _ & Hn).
  split; [apply Hs; reflexivity |].
  split; [apply Hh; reflexivity |].
  apply Hn. reflexivity.
Defined.

(** X6: band and verdict are monotone: a larger probability never gets a
    milder band, and never turns "Malicious" into "Safe". *)
Theorem band_and_verdict_monotone (p q : float) :
  (p <=? q)%float = true ->
  (band_rank (risk_band_from_prob p) <= band_rank (risk_band_from_prob q))%nat
  /\ (verdict_of p = "Malicious" -> verdict_of q = "Malicious").
Proof.
  intros Hpq. unfold risk_band_from_prob, verdict_of, FUSION_THRESHOLD. split.
  - destruct (q <? 0.30)%float eqn:Hq3.
    + rewrite (FloatOrder.leb_ltb_trans p q 0.30 Hpq Hq3). reflexivity.
    + destruct (q <=? 0.70)%float eqn:Hq7.
      * rewrite (FloatOrder.leb_trans p q 0.70 Hpq Hq7).
        destruct (p <? 0.30)%float; vm_compute; lia.
      * destruct (p <? 0.30)%float; [vm_compute; lia |].
        destruct (p <=? 0.70)%float; vm_compute; lia.
  - destruct (0.50 <=? p)%float eqn:Hp; [| discriminate].
    intros _. rewrite (FloatOrder.leb_trans 0.50 p q Hp Hpq). reflexivity.
Qed.

Lemma band_and_verdict_monotone_witness :
  (band_rank (risk_band_from_prob 0.25) <= band_rank (risk_band_from_prob 0.56))%nat.
Proof.
  refine (proj1 (band_and_verdict_monotone 0.25 0.56 _)). reflexivity.
Defined.

(** * The explanation sentences of the static scorer *)

Module ExplainFacts.
Import Explain.

Section WithLower.
Variable lower : string -> string.

(** The five sentences a feature name can select. *)
Lemma sentence_for_values (feat m : string) :
  sentence_for lower feat = Some m ->
  m ∈ [MSG_ENTROPY; MSG_CRYPT; MSG_SECTION; MSG_BTC; MSG_WRITE].
Proof.
  unfold sentence_for.
  repeat match goal with
         | |- context [if ?c then _ else _] => destruct c
         end; intros [= <-]; set_solver.
Qed.

Lemma collect_spec (top : list (string * float)) :
  forall msgs, collect lower top msgs = msgs ++ omap (sentence_for lower) top.*1.
Proof.
  induction top as [|[feat w] top IH]; intros msgs; simpl.
  - symmetry. apply app_nil_r.
  - rewrite IH. destruct (sentence_for lower feat) as [m|]; simpl.
    + rewrite <- app_assoc. reflexivity.
    + reflexivity.
Qed.

Lemma dedupe_acc (msgs : list string) :
  forall out,
    dedupe msgs out = out ++ filter (fun y => y ∉ out) (dedup_first msgs).
Proof.
  induction msgs as [|m msgs IH]; intros out; simpl.
  - rewrite filter_nil, app_nil_r. reflexivity.
  - rewrite IH. destruct (decide (m ∈ out)) as [Hin | Hout].
    + rewrite filter_cons_False by tauto.
      rewrite list_filter_filter_l; [reflexivity |].
      intros x Hx ->. exact (Hx Hin).
    + rewrite filter_cons_True by exact Hout.
      rewrite <- app_assoc. simpl. do 2 f_equal.
      rewrite list_filter_filter. apply list_filter_iff. intros x.
      rewrite elem_of_app, list_elem_of_singleton. tauto.
Qed.

Lemma dedupe_spec (msgs : list string) : dedupe msgs [] = dedup_first msgs.
Proof.
  rewrite dedupe_acc. simpl. apply ReasonMore.filter_all.
  intros x _. apply not_elem_of_nil.
Qed.

(** What the function returns, in one expression. *)
Lemma friendly_explanations_spec (top : list (string * float)) :
  friendly_explanations lower top
  = take 3 match dedup_first (omap (sentence_for lower) top.*1) with
           | [] => [MSG_DEFAULT]
           | l => l
           end.
Proof.
  unfold friendly_explanations. rewrite dedupe_spec, collect_spec.
  simpl. destruct (dedup_first (omap (sentence_for lower) top.*1)); reflexivity.
Qed.

(** A text that starts with [a ++ b] contains [b]; so does any text that
    contains [a ++ b]. *)
Lemma contains_here (b s : string) :
  String.prefix b s = true -> contains b s = true.
Proof. intros H. destruct s; simpl in *; rewrite H; reflexivity. Qed.

Lemma contains_step (b : string) (c : ascii) (s : string) :
  contains b s = true -> contains b (String c s) = true.
Proof. intros H. simpl. rewrite H. apply orb_true_r. Qed.

Lemma prefix_app_contains (a b s : string) :
  String.prefix (a ++ b)%string s = true -> contains b s = true.
Proof.
  revert s. induction a as [|c a IH]; intros s H; simpl in H.
  - apply contains_here, H.
  - destruct s as [|c' s]; simpl in H; [discriminate H |].
    destruct (Ascii.ascii_dec c c'); [| discriminate H].
    apply contains_step, IH, H.
Qed.

(** One to three sentences, all different. *)
Lemma friendly_bounds (top : list (string * float)) :
  (1 <= length (friendly_explanations lower top) <= 3)%nat /\
  NoDup (friendly_explanations lower top).
Proof.
  rewrite friendly_explanations_spec.
  pose proof (ReasonFacts.NoDup_dedup_first (omap (sentence_for lower) top.*1)) as Hnd.
  destruct (dedup_first (omap (sentence_for lower) top.*1)) as [|x l].
  - simpl. split; [lia | apply NoDup_singleton].
  - split; [rewrite length_take; cbn [length]; lia |].
    eapply sublist_NoDup; [exact Hnd | apply sublist_take].
Qed.

Lemma contains_cases (b s : string) :
  contains b s = true ->
  String.prefix b s = true \/
  exists c s', s = String c s' /\ contains b s' = true.
Proof.
  destruct s as [|c s']; simpl; intros H;
    apply orb_true_iff in H as [H | H]; try discriminate H.
  - left. exact H.
  - left. exact H.
  - right. exists c, s'. split; [reflexivity | exact H].
Qed.

Lemma contains_app (a b s : string) :
  contains (a ++ b)%string s = true -> contains b s = true.
Proof.
  induction s as [|c s IH]; intros H;
    apply contains_cases in H as [H | (c' & s' & Hs & H)].
  - exact (prefix_app_contains a b _ H).
  - discriminate Hs.
  - exact (prefix_app_contains a b _ H).
  - injection Hs as <- <-. apply contains_step, IH, H.
Qed.

Lemma prefix_app_l (b c s : string) :
  String.prefix (b ++ c)%string s = true -> String.prefix b s = true.
Proof.
  revert s. induction b as [|x b IH]; intros s H;
    [destruct s; reflexivity |].
  simpl in H. destruct s as [|y s]; simpl in *; [discriminate H |].
  destruct (Ascii.ascii_dec x y); [| discriminate H]. apply IH, H.
Qed.

Lemma contains_app_l (b c s : string) :
  contains (b ++ c)%string s = true -> contains b s = true.
Proof.
  induction s as [|x s IH]; intros H;
    apply contains_cases in H as [H | (c' & s' & Hs & H)].
  - exact (contains_here _ _ (prefix_app_l b c _ H)).
  - discriminate Hs.
  - exact (contains_here _ _ (prefix_app_l b c _ H)).
  - injection Hs as <- <-. apply contains_step, IH, H.
Qed.
End WithLower.
End ExplainFacts.

(** X7: whatever features it is given, and whatever [str.lower] makes of
    their names, [friendly_explanations] returns one to three distinct
    sentences: either the default sentence alone, exactly when no lowered
    feature name matches a keyword, or sentences among the five keyed
    ones, in the order their features first select them. *)
Theorem friendly_explanations_shape
    (lower : string -> string) (top : list (string * float)) :
  (1 <= length (Explain.friendly_explanations lower top) <= 3)%nat /\
  NoDup (Explain.friendly_explanations lower top) /\
  (Explain.friendly_explanations lower top = [Explain.MSG_DEFAULT] <->
   forall feat, feat ∈ top.*1 -> Explain.sentence_for lower feat = None) /\
  (Explain.friendly_explanations lower top <> [Explain.MSG_DEFAULT] ->
   Explain.friendly_explanations lower top
   = take 3 (dedup_first (omap (Explain.sentence_for lower) top.*1)) /\
   forall m, m ∈ Explain.friendly_explanations lower top ->
     m ∈ [Explain.MSG_ENTROPY; Explain.MSG_CRYPT; Explain.MSG_SECTION;
          Explain.MSG_BTC; Explain.MSG_WRITE]).
Proof.
  rewrite ExplainFacts.friendly_explanations_spec.
  pose proof (ReasonFacts.NoDup_dedup_first
                (omap (Explain.sentence_for lower) top.*1)) as Hnd.
  pose proof (ReasonFacts.elem_of_dedup_first
                (omap (Explain.sentence_for lower) top.*1)) as Hel.
  destruct (dedup_first (omap (Explain.sentence_for lower) top.*1)) as [|x l] eqn:HD.
  - simpl. split; [lia |]. split; [apply NoDup_singleton |].
    split; [| intros Hne; contradiction Hne; reflexivity].
    split; [| reflexivity]. intros _ feat Hfeat.
    destruct (Explain.sentence_for lower feat) as [m|] eqn:Hm; [| reflexivity].
    assert (Hin : m ∈ omap (Explain.sentence_for lower) top.*1)
      by (apply list_elem_of_omap; exists feat; split; assumption).
    apply Hel in Hin. inversion Hin.
  - assert (Hfive : forall m, m ∈ x :: l ->
              m ∈ [Explain.MSG_ENTROPY; Explain.MSG_CRYPT;
                   Explain.MSG_SECTION; Explain.MSG_BTC; Explain.MSG_WRITE]).
    { intros m Hm. apply Hel, list_elem_of_omap in Hm as (feat & _ & Hm).
      exact (ExplainFacts.sentence_for_values _ _ _ Hm). }
    assert (Hnot : take 3 (x :: l) <> [Explain.MSG_DEFAULT]).
    { simpl. intros [= -> _]. specialize (Hfive _ (list_elem_of_here _ _)).
      apply RuleMore.elem_of_decide in Hfive. vm_compute in Hfive.
      discriminate Hfive. }
    split; [rewrite length_take; cbn [length]; lia |].
    split; [eapply sublist_NoDup; [exact Hnd | apply sublist_take] |].
    split.
    + split; [intros H; contradiction (Hnot H) |]. intros Hnone.
      assert (Hx : x ∈ omap (Explain.sentence_for lower) top.*1)
        by (apply Hel; left).
      apply list_elem_of_omap in Hx as (feat & Hfeat & Hx).
      rewrite (Hnone feat Hfeat) in Hx. discriminate Hx.
    + intros _. split; [reflexivity |]. intros m Hm. apply Hfive.
      exact (elem_of_sublist _ _ _ Hm (sublist_take _ _)).
Qed.

(** X8: two keywords of the chain never decide.  A lowered name
    containing "encrypt" contains "crypt" and is answered by an earlier
    branch, so the fast-file-changes sentence is chosen for "write" or
    "bulk" only; a lowered name containing "numberofsections" contains
    "section". *)
Theorem encrypt_and_numberofsections_never_decide
    (lower : string -> string) (feat : string) :
  (Explain.contains "encrypt" (lower feat) = true ->
   Explain.sentence_for lower feat = Some Explain.MSG_ENTROPY \/
   Explain.sentence_for lower feat = Some Explain.MSG_CRYPT) /\
  (Explain.sentence_for lower feat = Some Explain.MSG_WRITE ->
   Explain.contains "write" (lower feat) = true \/
   Explain.contains "bulk" (lower feat) = true) /\
  (Explain.sentence_for lower feat = Some Explain.MSG_SECTION ->
   Explain.contains "section" (lower feat) = true).
Proof.
  assert (Hcrypt : Explain.contains "encrypt" (lower feat) = true ->
                   Explain.contains "crypt" (lower feat) = true)
    by exact (ExplainFacts.contains_app "en" "crypt" (lower feat)).
  assert (Hsection :
            Explain.contains "numberofsections" (lower feat) = true ->
            Explain.contains "section" (lower feat) = true)
    by exact (fun H => ExplainFacts.contains_app_l "section" "s" _
                         (ExplainFacts.contains_app "numberof" "sections"
                            (lower feat) H)).
  unfold Explain.sentence_for.
  destruct (Explain.contains "entropy" (lower feat)).
  { repeat split; try (intros; left; reflexivity); discriminate. }
  destruct (Explain.contains "import" (lower feat)); simpl.
  { repeat split; try (intros; right; reflexivity); discriminate. }
  destruct (Explain.contains "crypt" (lower feat)); simpl.
  { repeat split; try (intros; right; reflexivity); discriminate. }
  destruct (Explain.contains "encrypt" (lower feat));
    [discriminate (Hcrypt eq_refl) |].
  destruct (Explain.contains "virtualalloc" (lower feat)); simpl.
  { repeat split; discriminate. }
  destruct (Explain.contains "section" (lower feat)); simpl.
  { repeat split; try discriminate. }
  destruct (Explain.contains "numberofsections" (lower feat));
    [discriminate (Hsection eq_refl) |]. simpl.
  destruct (Explain.contains "bitcoin" (lower feat)); simpl.
  { repeat split; discriminate. }
  destruct (Explain.contains "btc" (lower feat)); simpl.
  { repeat split; discriminate. }
  destruct (Explain.contains "write" (lower feat)); simpl.
  { repeat split; try discriminate. intros _. left. reflexivity. }
  destruct (Explain.contains "bulk" (lower feat)); simpl.
  { repeat split; try discriminate. intros _. right. reflexivity. }
  repeat split; discriminate.
Qed.

(** * The frame handed to the classifier *)

Module FrameFacts.
Lemma positions_absent (cols : list string) (c : string) :
  forall k, c ∉ cols -> positions cols c k = [].
Proof.
  induction cols as [|x cols IH]; intros k Hc; simpl; [reflexivity |].
  apply not_elem_of_cons in Hc as (Hx & Hc).
  rewrite decide_False by congruence. simpl. apply IH, Hc.
Qed.

(** In a frame whose labels are distinct, a label sits at one position. *)
Lemma positions_NoDup (cols : list string) (c : string) :
  forall i k, NoDup cols -> cols !! i = Some c -> positions cols c k = [(k + i)%nat].
Proof.
  induction cols as [|x cols IH]; intros i k Hnd Hi; [discriminate Hi |].
  apply NoDup_cons in Hnd as (Hx & Hnd). simpl. destruct i as [|i]; simpl in Hi.
  - injection Hi as ->. rewrite decide_True by reflexivity.
    rewrite (positions_absent _ _ _ Hx). simpl. f_equal. lia.
  - rewrite decide_False.
    + simpl. rewrite (IH i (S k) Hnd Hi). f_equal. lia.
    + intros ->. apply Hx. exact (list_elem_of_lookup_2 _ _ _ Hi).
Qed.

(** The picks of [getitem]: one per label, at the label's position. *)
Lemma picks_NoDup (cols labels : list string) :
  NoDup cols -> (forall c, c ∈ labels -> c ∈ cols) ->
  Forall2 (fun c pick => pick.1 = c /\ cols !! pick.2 = Some c)
          labels
          (labels ≫= (fun c => (fun i => (c, i)) <$> positions cols c 0)).
Proof.
  intros Hnd. induction labels as [|c labels IH]; intros Hin.
  - constructor.
  - rewrite bind_cons.
    destruct (list_elem_of_lookup_1 _ _ (Hin c (list_elem_of_here _ _)))
      as (i & Hi).
    rewrite (positions_NoDup _ _ i 0 Hnd Hi). simpl. constructor.
    + split; [reflexivity | exact Hi].
    + apply IH. intros c' Hc'. apply Hin. right. exact Hc'.
Qed.

Lemma series_of_present (cols : list string) (vals : list value)
    (i : nat) (c : string) (v : value) :
  NoDup cols -> length vals = length cols ->
  cols !! i = Some c -> vals !! i = Some v ->
  series_of cols vals !! c = Some v.
Proof.
  intros Hnd Hlen Hc Hv. unfold series_of.
  apply elem_of_list_to_map_1.
  - rewrite fst_zip by lia. exact Hnd.
  - apply (list_elem_of_lookup_2 _ i). apply lookup_zip_with_Some.
    exists c, v. repeat split; assumption.
Qed.

Lemma series_of_absent (cols : list string) (vals : list value) (c : string) :
  c ∉ cols -> series_of cols vals !! c = None.
Proof.
  intros Hc. unfold series_of. apply not_elem_of_list_to_map_1.
  intros Hin. apply list_elem_of_fmap in Hin as ([c' v] & -> & Hin).
  apply Hc. exact (elem_of_zip_l _ _ _ _ Hin).
Qed.

(** The cell of an extended row under a label of the extended frame. *)
Lemma extended_cell (cols added : list string) (vals : list value)
    (i : nat) (c : string) :
  NoDup (cols ++ added) -> length vals = length cols ->
  (cols ++ added) !! i = Some c ->
  (vals ++ replicate (length added) (VFloat 0)) !! i
  = Some (cell_or_zero cols vals c).
Proof.
  intros Hnd Hlen Hi. apply NoDup_app in Hnd as (Hnd & Hdisj & _).
  destruct (decide (i < length cols)%nat) as [Hlt | Hge].
  - rewrite lookup_app_l in Hi by exact Hlt.
    rewrite lookup_app_l by lia.
    destruct (lookup_lt_is_Some_2 vals i) as (v & Hv); [lia |].
    unfold cell_or_zero, get.
    rewrite (series_of_present _ _ _ _ _ Hnd Hlen Hi Hv).
    exact Hv.
  - rewrite lookup_app_r in Hi by lia.
    rewrite lookup_app_r by lia.
    assert (Hc : c ∉ cols).
    { intros Hc. apply (Hdisj _ Hc). exact (list_elem_of_lookup_2 _ _ _ Hi). }
    unfold cell_or_zero, get. rewrite (series_of_absent _ _ _ Hc).
    apply lookup_replicate_2. apply lookup_lt_Some in Hi. lia.
Qed.

(** The loop appends the missing labels, once each, with cells 0.0. *)
Lemma fill_missing_spec (feats : list string) :
  forall X,
    NoDup (columns X) ->
    exists added,
      columns (fill_missing feats X) = columns X ++ added /\
      NoDup (columns X ++ added) /\
      rows (fill_missing feats X)
      = (fun '(idx, vals) =>
           (idx, vals ++ replicate (length added) (VFloat 0))) <$> rows X /\
      (forall f, f ∈ feats -> f ∈ columns X ++ added).
Proof.
  induction feats as [|c feats IH]; intros X Hnd; simpl.
  - exists []. rewrite app_nil_r. repeat split; [exact Hnd | | ].
    + rewrite <- (list_fmap_id (rows X)) at 1.
      apply list_fmap_ext. intros i [idx vals] _. simpl.
      rewrite app_nil_r. reflexivity.
    + intros f Hf. inversion Hf.
  - destruct (bool_decide (c ∈ columns X)) eqn:Hc.
    + apply bool_decide_eq_true in Hc.
      destruct (IH X Hnd) as (added & Hcols & Hnd' & Hrows & Hin).
      exists added. repeat split; try assumption.
      intros f Hf. apply elem_of_cons in Hf as [-> | Hf].
      * apply elem_of_app. left. exact Hc.
      * apply Hin, Hf.
    + apply bool_decide_eq_false in Hc.
      assert (Hnd1 : NoDup (columns (setitem_new X c (VFloat 0)))).
      { simpl. apply NoDup_app. repeat split.
        - exact Hnd.
        - intros x Hx Hx'. apply list_elem_of_singleton in Hx'.
          subst x. exact (Hc Hx).
        - apply NoDup_singleton. }
      destruct (IH _ Hnd1) as (added & Hcols & Hnd' & Hrows & Hin).
      simpl in Hcols, Hnd', Hrows, Hin.
      rewrite <- app_assoc in Hcols, Hnd', Hin. simpl in Hcols, Hnd', Hin.
      exists (c :: added). repeat split; try assumption.
      * rewrite Hrows, <- list_fmap_compose.
        apply list_fmap_ext. intros i [idx vals] _. simpl.
        rewrite <- app_assoc. reflexivity.
      * intros f Hf. apply elem_of_cons in Hf as [-> | Hf].
        -- apply elem_of_app. right. left.
        -- apply Hin, Hf.
Qed.

(** The cells picked from an extended row. *)
Lemma picked_cells (cols added : list string) (vals : list value)
    (labels : list string) (picks : list (string * nat)) :
  NoDup (cols ++ added) -> length vals = length cols ->
  Forall2 (fun c pick => pick.1 = c /\ (cols ++ added) !! pick.2 = Some c)
          labels picks ->
  picks.*1 = labels /\
  omap (fun pick => (vals ++ replicate (length added) (VFloat 0)) !! pick.2)
       picks
  = cell_or_zero cols vals <$> labels.
Proof.
  intros Hnd Hlen Hall.
  induction Hall as [|c [c' i] labels picks (Hc & Hi) _ (IH1 & IH2)].
  - split; reflexivity.
  - simpl in Hc, Hi. subst c'. csimpl.
    rewrite (extended_cell _ _ _ _ _ Hnd Hlen Hi), IH1, IH2.
    split; reflexivity.
Qed.
End FrameFacts.

Module EnsureOrderFacts.
(** The frame [_ensure_order] returns, in one expression. *)
Lemma ensure_order_spec (X : DataFrame) (feats : list string) :
  well_formed X -> NoDup (columns X) ->
  _ensure_order X feats
  = Ok {| columns := feats;
          rows := (fun '(idx, vals) =>
                     (idx, cell_or_zero (columns X) vals <$> feats))
                  <$> rows X |}.
Proof.
  intros Hwf Hnd. unfold _ensure_order, getitem.
  destruct (FrameFacts.fill_missing_spec feats X Hnd)
    as (added & Hcols & Hnd' & Hrows & Hin).
  rewrite Hcols, Hrows.
  assert (Hall : forallb (fun c => bool_decide (c ∈ columns X ++ added)) feats
                 = true).
  { apply forallb_forall. intros c Hc. apply bool_decide_eq_true, Hin.
    apply list_elem_of_In, Hc. }
  rewrite Hall.
  pose proof (FrameFacts.picks_NoDup _ feats Hnd' Hin) as Hpicks.
  rewrite <- list_fmap_compose.
  assert (Hfst : (feats ≫= (fun c => (fun i => (c, i))
                    <$> positions (columns X ++ added) c 0)).*1 = feats).
  { exact (proj1 (FrameFacts.picked_cells _ _
                    (replicate (length (columns X)) VNone) _ _ Hnd'
                    (length_replicate _ _) Hpicks)). }
  rewrite Hfst. do 2 f_equal.
  apply Forall_fmap_ext. unfold well_formed in Hwf.
  eapply Forall_impl; [exact Hwf |].
  intros [idx vals] Hlen. simpl in *. f_equal.
  exact (proj2 (FrameFacts.picked_cells _ _ _ _ _ Hnd' Hlen Hpicks)).
Qed.
End EnsureOrderFacts.

(** X9: on a frame whose rows are complete and whose column labels are
    distinct, [_ensure_order] never raises and returns a frame that has
    exactly the columns [feats], in that order, with complete rows: the
    same rows under the same index labels, each cell being the input's cell
    under that label, or 0.0 when the input has no such column. *)
Theorem ensure_order_selects_and_zero_fills (X : DataFrame) (feats : list string) :
  well_formed X -> NoDup (columns X) ->
  exists Y,
    _ensure_order X feats = Ok Y /\
    columns Y = feats /\
    (rows Y).*1 = (rows X).*1 /\
    well_formed Y /\
    (forall i idx vals,
       rows X !! i = Some (idx, vals) ->
       rows Y !! i = Some (idx, cell_or_zero (columns X) vals <$> feats)).
Proof.
  intros Hwf Hnd. eexists.
  split; [exact (EnsureOrderFacts.ensure_order_spec X feats Hwf Hnd) |].
  simpl. split; [reflexivity |]. split; [| split].
  - rewrite <- list_fmap_compose. apply list_fmap_ext.
    intros i [idx vals] _. reflexivity.
  - unfold well_formed. simpl. apply Forall_fmap, Forall_forall.
    intros [idx vals] _. simpl. apply length_fmap.
  - intros i idx vals Hi. rewrite list_lookup_fmap, Hi. reflexivity.
Qed.

Lemma ensure_order_selects_and_zero_fills_witness :
  exists Y,
    _ensure_order Samples.two_rows ["n_file_create"; "Machine"] = Ok Y /\
    columns Y = ["n_file_create"; "Machine"] /\
    (rows Y).*1 = (rows Samples.two_rows).*1 /\
    well_formed Y /\
    (forall i idx vals,
       rows Samples.two_rows !! i = Some (idx, vals) ->
       rows Y !! i
       = Some (idx, cell_or_zero (columns Samples.two_rows) vals
                    <$> ["n_file_create"; "Machine"])).
Proof.
  apply (ensure_order_selects_and_zero_fills Samples.two_rows).
  - repeat constructor.
  - apply (proj1 (bool_decide_eq_true _)). vm_compute. reflexivity.
Defined.

(** * The static scorer *)

Module StaticFacts.
Section WithRuntime.
Variable lower : string -> string.
Variable load_once : result StaticModel.
Variable sorted_by_importance :
  list (string * float) -> list (string * float).

(** What an answer of the static scorer is made of. *)
Lemma predict_static_Ok (df : DataFrame) (sr : ScoreResult) :
  Static.predict_static lower load_once sorted_by_importance df = Ok sr ->
  exists model X,
    load_once = Ok model /\
    _ensure_order df (model_feats model) = Ok X /\
    predict_proba model X = Ok (probs sr) /\
    preds sr
    = threshold_preds (as_dtype (proba_dtype model) (model_thr model))
        (probs sr) /\
    threshold_used sr = model_thr model /\
    reasons_list sr
    = Explain.friendly_explanations lower
        (take 3 (Static._top_features sorted_by_importance model
                   (model_feats model) 5)).
Proof.
  unfold Static.predict_static.
  destruct load_once as [model|e]; [| discriminate]. simpl.
  destruct (_ensure_order df (model_feats model)) as [X|e] eqn:HX;
    [| discriminate].
  simpl.
  destruct (predict_proba model X) as [ps|e] eqn:Hps; [| discriminate].
  simpl. intros [= <-]. exists model, X. simpl.
  repeat split; assumption.
Qed.

(** The static scorer gives one to three distinct reasons. *)
Lemma predict_static_reasons (df : DataFrame) (sr : ScoreResult) :
  Static.predict_static lower load_once sorted_by_importance df = Ok sr ->
  (1 <= length (reasons_list sr) <= 3)%nat /\ NoDup (reasons_list sr).
Proof.
  intros H.
  apply predict_static_Ok in H as (model & X & _ & _ & _ & _ & _ & ->).
  apply ExplainFacts.friendly_bounds.
Qed.
End WithRuntime.
End StaticFacts.

(** X10: when the static scorer answers on a frame with complete rows and
    distinct column labels, the classifier was called on exactly the
    model's columns, in the model's order, zero-filled where the upload had
    none; the threshold returned is the model's; there is one prediction
    per probability, and for a threshold within the range of the element
    type of the probabilities it is 1 exactly when the probability is at
    least the threshold taken into that type (rounded to binary32 for a
    classifier that answers in binary32); and there are one to three
    distinct reasons. *)
Theorem static_scorer_answer
    (lower : string -> string)
    (load_once : result StaticModel)
    (sorted_by_importance : list (string * float) -> list (string * float))
    (df : DataFrame) (sr : ScoreResult) :
  well_formed df -> NoDup (columns df) ->
  Static.predict_static lower load_once sorted_by_importance df = Ok sr ->
  exists model,
    load_once = Ok model /\
    predict_proba model
      {| columns := model_feats model;
         rows := (fun '(idx, vals) =>
                    (idx, cell_or_zero (columns df) vals <$> model_feats model))
                 <$> rows df |}
    = Ok (probs sr) /\
    threshold_used sr = model_thr model /\
    length (preds sr) = length (probs sr) /\
    (within_range (proba_dtype model) (model_thr model) = true ->
     forall i p, probs sr !! i = Some p ->
       preds sr !! i
       = Some (if (as_dtype (proba_dtype model) (model_thr model) <=? p)%float
               then 1 else 0)) /\
    (1 <= length (reasons_list sr) <= 3)%nat /\
    NoDup (reasons_list sr).
Proof.
  intros Hwf Hnd H.
  apply StaticFacts.predict_static_Ok in H
    as (model & X & Hload & HX & Hps & Hpreds & Hthr & Hreasons).
  rewrite (EnsureOrderFacts.ensure_order_spec df _ Hwf Hnd) in HX.
  injection HX as <-. exists model.
  split; [exact Hload |]. split; [exact Hps |]. split; [exact Hthr |].
  rewrite Hpreds, Hreasons. split; [apply length_fmap |].
  split.
  - intros _ i p Hp. exact (BehavFacts.threshold_preds_lookup _ _ _ _ Hp).
  - exact (ExplainFacts.friendly_bounds _ _).
Qed.

Lemma static_scorer_answer_witness :
  Static.predict_static Explain.ascii_lower (Ok StaticSamples.boosted)
    StaticSamples.sorted_pairs Samples.two_rows
  = Ok {| probs := [0.699999988079071044921875;
                    0.699999988079071044921875]%float;
          preds := [1; 1];
          threshold_used := 0.7%float;
          reasons_list := [Explain.MSG_ENTROPY] |}
  /\ [1; 1] !! 0%nat
     = Some (if (as_dtype float32 0.7 <=? 0.699999988079071044921875)%float
             then 1 else 0).
Proof.
  assert (H : Static.predict_static Explain.ascii_lower
                (Ok StaticSamples.boosted) StaticSamples.sorted_pairs
                Samples.two_rows
              = Ok {| probs := [0.699999988079071044921875;
                                0.699999988079071044921875]%float;
                      preds := [1; 1];
                      threshold_used := 0.7%float;
                      reasons_list := [Explain.MSG_ENTROPY] |})
    by (vm_compute; reflexivity).
  split; [exact H |].
  assert (Hwf : well_formed Samples.two_rows) by repeat constructor.
  assert (Hnd : NoDup (columns Samples.two_rows))
    by (apply (proj1 (bool_decide_eq_true _)); vm_compute; reflexivity).
  destruct (static_scorer_answer _ _ _ _ _ Hwf Hnd H)
    as (model & Hload & _ & _ & _ & Hpreds & _).
  injection Hload as <-.
  assert (Hw : within_range (proba_dtype StaticSamples.boosted)
                 (model_thr StaticSamples.boosted) = true)
    by (vm_compute; reflexivity).
  exact (Hpreds Hw 0%nat 0.699999988079071044921875%float eq_refl).
Defined.

(** * Which reasons the behavioural scorer returns *)

Module LabelFacts.
(** When some row is labelled 0, the loop ends with the reasons of the
    last such row. *)
Lemma score_rows_last_zero
    (pre post : list (label * Series)) (idx : label) (row : Series) :
  forall acc rf ps rs,
    label_is_zero idx = true ->
    Forall (fun it => label_is_zero it.1 = false) post ->
    score_rows (pre ++ (idx, row) :: post) acc rf = Ok (ps, rs) ->
    exists sc, _compute_behav_score row = Ok (sc, rs).
Proof.
  induction pre as [|[idx' row'] pre IH]; intros acc rf ps rs Hz Hpost H;
    simpl in H.
  - destruct (_compute_behav_score row) as [[sc r]|e] eqn:Hrow;
      [| discriminate H].
    simpl in H. rewrite Hz in H.
    apply (LoopFacts.score_rows_no_zero _ _ _ _ _ Hpost) in H. subst rs.
    exists sc. reflexivity.
  - destruct (_compute_behav_score row') as [out|e]; [| discriminate H].
    simpl in H. exact (IH _ _ _ _ Hz Hpost H).
Qed.

(** Either no row is labelled 0, or there is a last one. *)
Lemma last_zero_label (its : list (label * Series)) :
  Forall (fun it => label_is_zero it.1 = false) its \/
  exists pre idx row post,
    its = pre ++ (idx, row) :: post /\ label_is_zero idx = true /\
    Forall (fun it => label_is_zero it.1 = false) post.
Proof.
  induction its as [|[idx row] its IH].
  - left. constructor.
  - destruct IH as [Hall | (pre & idx' & row' & post & -> & Hz & Hpost)].
    + destruct (label_is_zero idx) eqn:Hidx.
      * right. exists [], idx, row, its. repeat split; assumption.
      * left. constructor; assumption.
    + right. exists ((idx, row) :: pre), idx', row', post.
      repeat split; assumption.
Qed.

(** The reasons are empty exactly when no row is labelled 0. *)
Lemma reasons_nil_iff (d : DataFrame) (sr : ScoreResult) :
  empty d = false ->
  predict_behav (Some d) = Ok sr ->
  reasons_list sr = [] <->
  Forall (fun it => label_is_zero it.1 = false) (iterrows d).
Proof.
  intros Hne H.
  apply (BehavFacts.predict_behav_rows _ _ Hne) in H as (rs & H & ->).
  simpl. split.
  - intros ->.
    destruct (last_zero_label (iterrows d))
      as [Hall | (pre & idx & row & post & Hit & Hz & Hpost)];
      [exact Hall |].
    rewrite Hit in H.
    apply (score_rows_last_zero _ _ _ _ _ _ _ _ Hz Hpost) in H
      as (sc & Hsc).
    apply RuleFacts.compute_Ok in Hsc as (ft & _ & Hout).
    pose proof (RuleFacts.score_features_reasons ft) as Hnil.
    rewrite <- Hout in Hnil. contradiction Hnil. reflexivity.
  - intros Hall. exact (LoopFacts.score_rows_no_zero _ _ _ _ _ Hall H).
Qed.

Lemma dedup_first_nil (l : list string) : dedup_first l = [] <-> l = [].
Proof. destruct l; simpl; split; intros H; try reflexivity; discriminate H. Qed.

Lemma take_3_nil (l : list string) : take 3 l = [] <-> l = [].
Proof. destruct l; simpl; split; intros H; try reflexivity; discriminate H. Qed.
End LabelFacts.

(** X11: which reasons the behavioural scorer returns for a frame with
    rows.  They are the reasons of the last row whose index label is 0; if
    no row bears the label 0 they are empty.  So the reasons are empty
    exactly when no row is labelled 0. *)
Theorem behavioural_reasons_by_label (d : DataFrame) (sr : ScoreResult) :
  empty d = false ->
  predict_behav (Some d) = Ok sr ->
  (forall pre idx row post,
     iterrows d = pre ++ (idx, row) :: post ->
     label_is_zero idx = true ->
     Forall (fun it => label_is_zero it.1 = false) post ->
     exists sc, _compute_behav_score row = Ok (sc, reasons_list sr)) /\
  (reasons_list sr = [] <->
   Forall (fun it => label_is_zero it.1 = false) (iterrows d)).
Proof.
  intros Hne H. split.
  - apply (BehavFacts.predict_behav_rows _ _ Hne) in H as (rs & H & ->).
    simpl. intros pre idx row post Hit Hz Hpost. rewrite Hit in H.
    exact (LabelFacts.score_rows_last_zero _ _ _ _ _ _ _ _ Hz Hpost H).
  - exact (LabelFacts.reasons_nil_iff d sr Hne H).
Qed.

Lemma behavioural_reasons_by_label_witness :
  exists sc,
    _compute_behav_score
      (series_of (columns Samples.zero_label_last) [VInt 100; VInt 5])
    = Ok (sc, [REASON_NORMAL]).
Proof.
  refine (proj1 (behavioural_reasons_by_label Samples.zero_label_last
                   {| probs := [0.6; 0]%float; preds := [1; 0];
                      threshold_used := 0.6%float;
                      reasons_list := [REASON_NORMAL] |} _ _)
            [(LInt 1, series_of (columns Samples.zero_label_last)
                        [VInt 100; VInt 2000])]
            (LInt 0) _ [] _ _ _);
    try (vm_compute; reflexivity).
  constructor.
Defined.

(** X12: the explanation of a fusion with the static scorer of
    [static_model.py] is empty exactly when that scorer failed and the
    frame has rows of which none is labelled 0; whenever the static scorer
    answers, one to three reasons are shown. *)
Theorem fused_reasons_empty_iff
    (lower : string -> string)
    (load_once : result StaticModel)
    (sorted_by_importance : list (string * float) -> list (string * float))
    (mean : list float -> float) (df : DataFrame)
    (p : float) (v : string) (dbg : DebugInfo) :
  combine_model_outputs (Static.predict_static lower load_once sorted_by_importance)
    mean df = Ok (p, v, dbg) ->
  (reasons dbg = [] <->
   is_ok (Static.predict_static lower load_once sorted_by_importance df) = false /\
   empty df = false /\
   Forall (fun r => label_is_zero r.1 = false) (rows df)) /\
  (is_ok (Static.predict_static lower load_once sorted_by_importance df) = true ->
   (1 <= length (reasons dbg) <= 3)%nat).
Proof.
  intros H.
  pose proof (FusionFacts.fuse_is_ok
                (Static.predict_static lower load_once sorted_by_importance)
                mean df) as Hok.
  rewrite H in Hok. cbn [is_ok] in Hok.
  apply FusionFacts.fuse_Ok in H as (_ & _ & _ & ->).
  rewrite ReasonFacts.soft_reasons_spec.
  assert (Hlabels :
            Forall (fun it : label * Series => label_is_zero it.1 = false)
                   (iterrows df)
            <-> Forall (fun r : label * list value => label_is_zero r.1 = false)
                       (rows df)).
  { unfold iterrows. rewrite Forall_fmap. apply Forall_proper; [| reflexivity].
    intros [idx vals]. reflexivity. }
  destruct (Static.predict_static lower load_once sorted_by_importance df)
    as [s|es] eqn:Hs; cbn [reasons_of is_ok] in *.
  - destruct (StaticFacts.predict_static_reasons _ _ _ _ _ Hs) as (Hlen & _).
    assert (Hne : dedup_first (reasons_of (predict_behav (Some df))
                               ++ reasons_list s) <> []).
    { intros HD.
      apply (proj1 (LabelFacts.dedup_first_nil _)), app_eq_nil in HD
        as (_ & Hnil).
      rewrite Hnil in Hlen. simpl in Hlen. lia. }
    split.
    + split; [| intros (Hf & _); discriminate Hf].
      intros Hnil. exfalso.
      exact (Hne (proj1 (LabelFacts.take_3_nil _) Hnil)).
    + intros _. rewrite length_take.
      destruct (dedup_first (reasons_of (predict_behav (Some df))
                             ++ reasons_list s)) as [|x l];
        [contradiction Hne; reflexivity | cbn [length]; lia].
  - rewrite app_nil_r. rewrite orb_false_r in Hok.
    symmetry in Hok. apply ResultFacts.is_ok_true in Hok as (b & Hb).
    rewrite Hb. cbn [reasons_of]. split; [| discriminate].
    rewrite LabelFacts.take_3_nil, LabelFacts.dedup_first_nil.
    destruct (empty df) eqn:Hne.
    + unfold predict_behav in Hb. rewrite Hne in Hb. injection Hb as <-.
      simpl. split; [discriminate | intros (_ & Hf & _); discriminate Hf].
    + rewrite (LabelFacts.reasons_nil_iff df b Hne Hb), Hlabels. tauto.
Qed.

Lemma fused_reasons_empty_iff_witness :
  exists dbg,
    combine_model_outputs
      (Static.predict_static Explain.ascii_lower StaticSamples.no_model
         StaticSamples.sorted_pairs)
      Samples.mean_left Samples.shifted_index
    = Ok (0.3%float, "Safe", dbg)
    /\ reasons dbg = [].
Proof.
  eexists. split; [vm_compute; reflexivity |].
  refine (proj2 (proj1 (fused_reasons_empty_iff
                          Explain.ascii_lower
                          StaticSamples.no_model StaticSamples.sorted_pairs
                          Samples.mean_left Samples.shifted_index
                          0.3 "Safe" _ _)) _).
  - vm_compute. reflexivity.
  - split; [reflexivity |]. split; [reflexivity |].
    repeat constructor.
Defined.

(** * The scan routes *)

Module RouteFacts.
Section WithScorers.
Variable predict_static : DataFrame -> result ScoreResult.
Variable mean : list float -> float.

(** The only exception that leaves the fusion. *)
Lemma combine_Err (df : DataFrame) (e : exn) :
  combine_model_outputs predict_static mean df = Err e ->
  e = RuntimeError "Both models failed." /\
  is_ok (predict_behav (Some df)) = false /\
  is_ok (predict_static df) = false.
Proof.
  intros He.
  pose proof (FusionFacts.fuse_is_ok predict_static mean df) as Hok.
  rewrite He in Hok. cbn [is_ok] in Hok. symmetry in Hok.
  apply orb_false_iff in Hok as (Hb & Hs).
  split; [| split; assumption].
  apply ResultFacts.is_ok_false in Hb as (eb & Hb).
  apply ResultFacts.is_ok_false in Hs as (es & Hs).
  rewrite (FusionFacts.fuse_both_failed _ mean _ _ _ Hb Hs) in He.
  injection He as <-. reflexivity.
Qed.
End WithScorers.
End RouteFacts.

(** X13: [/scan] never answers 400 for what the scorers do: the fusion
    lets out no [KeyError] and no [ValueError], so the two handlers that
    answer 400 are never reached; the route answers 500 exactly when both
    scorers failed, and replies otherwise. *)
Theorem scan_file_status
    (predict_static : DataFrame -> result ScoreResult)
    (mean : list float -> float) (df : DataFrame) :
  Routes.scan_file predict_static mean df <> Routes.HTTPException 400 /\
  (Routes.scan_file predict_static mean df = Routes.HTTPException 500 <->
   is_ok (predict_behav (Some df)) = false /\
   is_ok (predict_static df) = false) /\
  (forall code,
     Routes.scan_file predict_static mean df = Routes.HTTPException code ->
     code = 500).
Proof.
  unfold Routes.scan_file.
  pose proof (FusionFacts.fuse_is_ok predict_static mean df) as Hok.
  destruct (combine_model_outputs predict_static mean df)
    as [[[p v] dbg]|e] eqn:H.
  - cbn [is_ok] in Hok. symmetry in Hok. apply orb_true_iff in Hok.
    split; [discriminate |]. split; [| discriminate].
    split; [discriminate |]. intros (Hb & Hs).
    rewrite Hb, Hs in Hok. destruct Hok; discriminate.
  - apply RouteFacts.combine_Err in H as (-> & Hb & Hs). simpl.
    split; [discriminate |]. split; [| intros code [= <-]; reflexivity].
    split; [intros _; split; assumption | reflexivity].
Qed.

(** X14: when the static scorer is unavailable, [/scan] and
    [/scan_behavioral] decide alike: same failure, or same verdict,
    probability, band and reasons (the reply of [/scan] only lacks the
    source type). *)
Theorem scan_file_degrades_to_behavioural
    (predict_static : DataFrame -> result ScoreResult)
    (mean : list float -> float) (df : DataFrame) :
  is_ok (predict_static df) = false ->
  Routes.scan_file predict_static mean df
  = match Routes.scan_behavioral mean df with
    | Routes.Response r => Routes.Response (Routes.without_source r)
    | Routes.HTTPException code => Routes.HTTPException code
    end.
Proof.
  intros Hs. apply ResultFacts.is_ok_false in Hs as (es & Hs).
  unfold Routes.scan_file, Routes.scan_behavioral.
  destruct (predict_behav (Some df)) as [b|eb] eqn:Hb.
  - destruct (ReasonMore.predict_behav_reasons _ _ Hb) as (Hnd & Hlen).
    unfold combine_model_outputs, try_scorer. rewrite Hb, Hs. simpl.
    rewrite ?app_nil_r, (ReasonMore.soft_reasons_short _ Hnd Hlen).
    reflexivity.
  - rewrite (FusionFacts.fuse_both_failed _ mean _ _ _ Hb Hs). reflexivity.
Qed.

Lemma scan_file_degrades_to_behavioural_witness :
  Routes.scan_file Samples.static_down Samples.mean_left Samples.two_rows
  = Routes.Response
      {| Routes.verdict := "Malicious";
         Routes.final_prob := 0.6000000000000001;
         Routes.band := "Caution";
         Routes.shown_reasons := [REASON_FILE; REASON_PROC];
         Routes.source_type := None |}.
Proof.
  rewrite (scan_file_degrades_to_behavioural
             Samples.static_down Samples.mean_left Samples.two_rows eq_refl).
  vm_compute. reflexivity.
Defined.

(** * Frames that carry no behavioural column *)

Module NoColumnFacts.
(** A row without any of the seven columns scores 0.0, with the
    normal-range sentence. *)
Lemma compute_without_columns (row : Series) :
  (forall k, k ∈ behav_keys -> row !! k = None) ->
  _compute_behav_score row = Ok (0%float, [REASON_NORMAL]).
Proof.
  intros Hnone.
  assert (Hfalsy : forall k, k ∈ behav_keys ->
                     truthy (get row k (VInt 0)) = false).
  { intros k Hk. apply FieldFacts.get_missing, Hnone, Hk. }
  unfold _compute_behav_score, read_features.
  rewrite !FieldFacts.count_field_falsy
    by (apply Hfalsy; unfold behav_keys; set_solver).
  simpl.
  rewrite !FieldFacts.ratio_field_falsy
    by (apply Hfalsy; unfold behav_keys; set_solver).
  vm_compute. reflexivity.
Qed.

Lemma series_without_columns (cols : list string) (vals : list value) :
  (forall k, k ∈ behav_keys -> k ∉ cols) ->
  forall k, k ∈ behav_keys -> series_of cols vals !! k = None.
Proof.
  intros Hcols k Hk. apply FrameFacts.series_of_absent, Hcols, Hk.
Qed.

(** The loop over rows that all score 0.0: the reasons are set by every
    row labelled 0. *)
Lemma score_rows_all_zero (its : list (label * Series)) :
  forall acc rf,
    Forall (fun it => _compute_behav_score it.2 = Ok (0%float, [REASON_NORMAL]))
           its ->
    score_rows its acc rf
    = Ok (acc ++ replicate (length its) 0%float,
          if existsb (fun it => label_is_zero it.1) its
          then [REASON_NORMAL] else rf).
Proof.
  induction its as [|[idx row] its IH]; intros acc rf Hall; simpl.
  - rewrite app_nil_r. reflexivity.
  - inversion Hall as [|? ? Hrow Hrest]; subst. simpl in Hrow.
    rewrite Hrow. simpl.
    rewrite (IH (acc ++ [0%float])
                (if label_is_zero idx then [REASON_NORMAL] else rf) Hrest).
    rewrite <- app_assoc. simpl.
    destruct (label_is_zero idx), (existsb _ its); reflexivity.
Qed.

(** Rows and the series made of them bear the same labels. *)
Lemma zero_label_iterrows (d : DataFrame) :
  existsb (fun it => label_is_zero it.1) (iterrows d)
  = existsb (fun r => label_is_zero r.1) (rows d).
Proof.
  unfold iterrows. generalize (rows d). intros l.
  induction l as [|[idx vals] l IH]; [reflexivity |].
  rewrite fmap_cons. cbn [existsb]. rewrite IH. reflexivity.
Qed.
End NoColumnFacts.

(** X15: a frame with rows but none of the seven behavioural columns (a
    table of static features, say) is not refused: every row scores 0.0 and
    is predicted 0, and the reasons are the normal-range sentence when some
    row is labelled 0, and empty when none is.  The fusion then blends that
    zero: the final probability is 0.6 times the static mean plus 0.4 times
    the mean of zeros. *)
Theorem frame_without_behavioural_columns
    (predict_static : DataFrame -> result ScoreResult)
    (mean : list float -> float) (d : DataFrame) :
  empty d = false ->
  (forall k, k ∈ behav_keys -> k ∉ columns d) ->
  predict_behav (Some d)
  = Ok {| probs := replicate (length (rows d)) 0%float;
          preds := replicate (length (rows d)) 0;
          threshold_used := 0.6%float;
          reasons_list :=
            if existsb (fun r => label_is_zero r.1) (rows d)
            then [REASON_NORMAL] else [] |} /\
  (forall s,
     predict_static d = Ok s ->
     final_prob_of (combine_model_outputs predict_static mean d)
     = Ok (0.6 * mean (probs s)
           + 0.4 * mean (replicate (length (rows d)) 0%float))%float).
Proof.
  intros Hne Hcols.
  assert (Hall : Forall (fun it => _compute_behav_score it.2
                                   = Ok (0%float, [REASON_NORMAL]))
                        (iterrows d)).
  { unfold iterrows. apply Forall_fmap, Forall_forall.
    intros [idx vals] _. simpl.
    apply NoColumnFacts.compute_without_columns.
    apply NoColumnFacts.series_without_columns, Hcols. }
  pose proof (NoColumnFacts.score_rows_all_zero _ [] [] Hall) as Hrows.
  rewrite NoColumnFacts.zero_label_iterrows in Hrows.
  assert (Hb : predict_behav (Some d)
               = Ok {| probs := replicate (length (rows d)) 0%float;
                       preds := replicate (length (rows d)) 0;
                       threshold_used := 0.6%float;
                       reasons_list :=
                         if existsb (fun r => label_is_zero r.1) (rows d)
                         then [REASON_NORMAL] else [] |}).
  { unfold predict_behav. rewrite Hne, Hrows. simpl.
    rewrite LoopFacts.iterrows_length. unfold threshold_preds.
    rewrite fmap_replicate. reflexivity. }
  split.
  - exact Hb.
  - intros s Hs. rewrite FusionFacts.final_prob_fuse, Hs, Hb. reflexivity.
Qed.

Lemma frame_without_behavioural_columns_witness :
  predict_behav (Some StaticSamples.static_table)
  = Ok {| probs := [0; 0]%float; preds := [0; 0];
          threshold_used := 0.6%float;
          reasons_list := [REASON_NORMAL] |}.
Proof.
  refine (proj1 (frame_without_behavioural_columns
                   Samples.static_08 Samples.mean_left
                   StaticSamples.static_table _ _)).
  - reflexivity.
  - assert (H : Forall (fun k => k ∉ columns StaticSamples.static_table)
                       behav_keys)
      by (apply (proj1 (bool_decide_eq_true _)); vm_compute; reflexivity).
    intros k Hk. exact (proj1 (Forall_forall _ _) H k Hk).
Defined.

(** * From the event log to the aggregated features *)

Module PipelineFacts.
Import Pipeline.

Section Extract.
Variable strip : string -> string.
Variable int : string -> result Z.

Lemma event_row_flags (ev : Event) (row : EventRow) :
  event_row strip int ev = Ok (Some row) -> flags_set row.
Proof.
  unfold event_row.
  destruct ev as [system|]; simpl; [| discriminate].
  destruct (EventID system) as [[text|]|]; simpl;
    [destruct (int (strip text)) as [id|e]; simpl; [| discriminate] | |];
    destruct (TimeCreated system) as [[t|]|]; simpl; try discriminate.
  intros [= <-]. repeat split.
Qed.

Lemma event_row_is_ok (ev : Event) :
  is_ok (event_row strip int ev) = negb (bad_event_id strip int ev).
Proof.
  unfold event_row, bad_event_id.
  destruct ev as [system|]; simpl; [| reflexivity].
  destruct (EventID system) as [[text|]|]; simpl;
    [destruct (int (strip text)) as [id|e]; simpl; [| reflexivity] | |];
    destruct (TimeCreated system) as [[t|]|]; reflexivity.
Qed.

(** The error of an event is the one [int] raised on its identifier. *)
Lemma event_row_Err (ev : Event) (e : exn) :
  event_row strip int ev = Err e ->
  exists system text,
    ev = Some system /\ EventID system = Some (Some text) /\
    int (strip text) = Err e.
Proof.
  unfold event_row.
  destruct ev as [system|]; simpl; [| discriminate].
  destruct (EventID system) as [[text|]|] eqn:Hid; simpl.
  - destruct (int (strip text)) as [id|e'] eqn:Hint; simpl.
    + destruct (TimeCreated system) as [[t|]|]; discriminate.
    + intros [= <-]. exists system, text. rewrite Hid. auto.
  - destruct (TimeCreated system) as [[t|]|]; discriminate.
  - destruct (TimeCreated system) as [[t|]|]; discriminate.
Qed.

(** The loop keeps the flags set and gathers at most one row per event. *)
Lemma event_rows_Ok (events : list Event) :
  forall acc rows,
    event_rows strip int events acc = Ok rows ->
    Forall flags_set acc ->
    Forall flags_set rows /\
    (length rows <= length acc + length events)%nat.
Proof.
  induction events as [|ev events IH]; intros acc rows H Hacc; simpl in H.
  - injection H as <-. split; [exact Hacc | lia].
  - destruct (event_row strip int ev) as [[row|]|e] eqn:Hev; simpl in H;
      [| | discriminate H].
    + apply IH in H as (Hrows & Hlen).
      * split; [exact Hrows |]. rewrite length_app in Hlen. simpl in *. lia.
      * apply Forall_app. split; [exact Hacc |].
        constructor; [exact (event_row_flags _ _ Hev) | constructor].
    + apply IH in H as (Hrows & Hlen); [| exact Hacc].
      split; [exact Hrows | simpl; lia].
Qed.

Lemma event_rows_is_ok (events : list Event) :
  forall acc,
    is_ok (event_rows strip int events acc)
    = negb (existsb (bad_event_id strip int) events).
Proof.
  induction events as [|ev events IH]; intros acc; simpl; [reflexivity |].
  pose proof (event_row_is_ok ev) as Hev.
  destruct (event_row strip int ev) as [r|e]; simpl in *.
  - rewrite IH.
    destruct (bad_event_id strip int ev); [discriminate Hev | reflexivity].
  - destruct (bad_event_id strip int ev); [reflexivity | discriminate Hev].
Qed.

Lemma event_rows_Err (events : list Event) :
  forall acc e,
    event_rows strip int events acc = Err e ->
    exists system text,
      Some system ∈ events /\ EventID system = Some (Some text) /\
      int (strip text) = Err e.
Proof.
  induction events as [|ev events IH]; intros acc e H; simpl in H.
  - discriminate H.
  - destruct (event_row strip int ev) as [r|e'] eqn:Hev; simpl in H.
    + destruct (IH _ _ H) as (system & text & Hin & Hrest).
      exists system, text. split; [right; exact Hin | exact Hrest].
    + injection H as <-.
      destruct (event_row_Err _ _ Hev) as (system & text & -> & Hrest).
      exists system, text. split; [left | exact Hrest].
Qed.

(** A successful extraction gathered every event that has an identifier
    and a time stamp, in order, and nothing else. *)
Lemma extract_shape (events : list Event) :
  is_ok (extract_behavior_features strip int events)
  = is_ok (event_rows strip int events []).
Proof.
  unfold extract_behavior_features.
  destruct (event_rows strip int events []) as [[|row rows]|e]; reflexivity.
Qed.
End Extract.

Lemma wrap64_small (z : Z) : - 2 ^ 63 <= z < 2 ^ 63 -> wrap64 z = z.
Proof. intros Hz. unfold wrap64. rewrite Z.mod_small; lia. Qed.

Lemma count_id_cons (k : Z) (row : EventRow) (rows : list EventRow) :
  count_id k (row :: rows)
  = (if event_id row =? k then 1 else 0) + count_id k rows.
Proof.
  unfold count_id. rewrite filter_cons.
  destruct (decide (event_id row = k)) as [-> | Hne].
  - rewrite Z.eqb_refl. simpl length. lia.
  - apply Z.eqb_neq in Hne. rewrite Hne. lia.
Qed.

Lemma count_id_bounds (k : Z) (rows : list EventRow) :
  0 <= count_id k rows <= Z.of_nat (length rows).
Proof.
  unfold count_id. pose proof (length_filter (fun row => event_id row = k) rows).
  lia.
Qed.

(** Without overflow, the sum of a flag column counts the rows with the
    flag's identifier. *)
Lemma column_sum_count (col : EventRow -> Z) (k : Z) (rows : list EventRow) :
  forall acc,
    Forall (fun row => col row = if event_id row =? k then 1 else 0) rows ->
    0 <= acc -> acc + Z.of_nat (length rows) < 2 ^ 63 ->
    fold_left (fun a row => wrap64 (a + col row)) rows acc
    = acc + count_id k rows.
Proof.
  induction rows as [|row rows IH]; intros acc Hall Hacc Hlen; simpl.
  - unfold count_id. simpl. lia.
  - inversion Hall as [|? ? Hrow Hrest]; subst.
    rewrite count_id_cons, Hrow. simpl length in Hlen.
    assert (Hbit : 0 <= (if event_id row =? k then 1 else 0) <= 1)
      by (destruct (event_id row =? k); lia).
    rewrite wrap64_small by lia.
    rewrite (IH _ Hrest) by lia. lia.
Qed.

(** A row counts for one identifier at most. *)
Lemma counts_sum (rows : list EventRow) :
  count_id 1 rows + count_id 11 rows + count_id 3 rows
  <= Z.of_nat (length rows).
Proof.
  induction rows as [|row rows IH]; [unfold count_id; simpl; lia |].
  rewrite !count_id_cons. simpl length.
  destruct (Z.eqb_spec (event_id row) 1) as [-> | H1]; simpl; [lia |].
  destruct (Z.eqb_spec (event_id row) 11) as [-> | H11]; simpl; [lia |].
  destruct (event_id row =? 3); lia.
Qed.
End PipelineFacts.

(** X16: the rows that [extract_behavior_features] wrote, aggregated by
    [aggregate_behavior_csv] (fewer than 2^63 of them): the event total is
    the number of rows, the three counts are the numbers of rows with
    identifier 1, 11 and 3, they add up to the total at most, and no more
    rows were written than there were events. *)
Theorem aggregated_counts_of_extracted_rows
  (strip : string -> string) (int : string -> result Z)
  (events : list Pipeline.Event) (rows : list Pipeline.EventRow)
  (sample_id : string) :
  Pipeline.extract_behavior_features strip int events = Ok (Some rows) ->
  Z.of_nat (length rows) < 2 ^ 63 ->
  exists features,
    Pipeline.aggregate_behavior_csv rows sample_id = Some features /\
    features !! "sample_id" = Some (VStr sample_id) /\
    features !! "total_events" = Some (VInt (Z.of_nat (length rows))) /\
    features !! "n_proc_create" = Some (VInt (Pipeline.count_id 1 rows)) /\
    features !! "n_file_create" = Some (VInt (Pipeline.count_id 11 rows)) /\
    features !! "n_net_conn" = Some (VInt (Pipeline.count_id 3 rows)) /\
    Pipeline.count_id 1 rows + Pipeline.count_id 11 rows
      + Pipeline.count_id 3 rows <= Z.of_nat (length rows) /\
    (0 < length rows <= length events)%nat.
Proof.
  intros Hex Hlen.
  unfold Pipeline.extract_behavior_features in Hex.
  destruct (Pipeline.event_rows strip int events []) as [rows'|e] eqn:Hrows;
    simpl in Hex; [| discriminate Hex].
  destruct rows' as [|row rows']; [discriminate Hex |].
  injection Hex as <-.
  destruct (PipelineFacts.event_rows_Ok _ _ _ _ _ Hrows (Forall_nil_2 _))
    as (Hflags & Hcount).
  set (rows := row :: rows') in *.
  assert (Hsum : forall col k,
             Forall (fun r => col r
                              = if Pipeline.event_id r =? k then 1 else 0)
                    rows ->
             Pipeline.column_sum col rows = Pipeline.count_id k rows).
  { intros col k Hcol. unfold Pipeline.column_sum.
    rewrite (PipelineFacts.column_sum_count col k rows 0 Hcol); lia. }
  assert (H1 : Pipeline.column_sum Pipeline.is_process_create rows
               = Pipeline.count_id 1 rows).
  { apply Hsum. eapply Forall_impl; [exact Hflags |]. intros r Hr. apply Hr. }
  assert (H11 : Pipeline.column_sum Pipeline.is_file_create rows
                = Pipeline.count_id 11 rows).
  { apply Hsum. eapply Forall_impl; [exact Hflags |]. intros r Hr. apply Hr. }
  assert (H3 : Pipeline.column_sum Pipeline.is_network_conn rows
               = Pipeline.count_id 3 rows).
  { apply Hsum. eapply Forall_impl; [exact Hflags |]. intros r Hr. apply Hr. }
  unfold Pipeline.aggregate_behavior_csv. fold rows. cbv zeta.
  rewrite H1, H11, H3.
  eexists. split; [unfold rows at 1; reflexivity |].
  split; [reflexivity |]. split; [reflexivity |].
  split; [reflexivity |]. split; [reflexivity |]. split; [reflexivity |].
  split; [exact (PipelineFacts.counts_sum rows) |].
  subst rows. simpl in *. lia.
Qed.

Lemma aggregated_counts_of_extracted_rows_witness :
  exists features,
    Pipeline.aggregate_behavior_csv StaticSamples.written_rows "sample_1"
    = Some features /\
    features !! "sample_id" = Some (VStr "sample_1") /\
    features !! "total_events" = Some (VInt 2) /\
    features !! "n_proc_create" = Some (VInt 0) /\
    features !! "n_file_create" = Some (VInt 1) /\
    features !! "n_net_conn" = Some (VInt 1) /\
    0 + 1 + 1 <= 2 /\
    (0 < 2 <= 4)%nat.
Proof.
  refine (aggregated_counts_of_extracted_rows
            Pipeline.py_strip Pipeline.py_int StaticSamples.four_events
            StaticSamples.written_rows "sample_1" _ _);
    vm_compute; reflexivity.
Defined.

(** X17: [extract_behavior_features] fails exactly when some event carries
    an [EventID] text that [int] rejects, whether or not the event has a
    time stamp, and the error is the one [int] raised; events without
    identifier or time stamp are skipped and never make it fail. *)
Theorem extraction_fails_on_rejected_identifier
  (strip : string -> string) (int : string -> result Z)
  (events : list Pipeline.Event) :
  is_ok (Pipeline.extract_behavior_features strip int events)
  = negb (existsb (Pipeline.bad_event_id strip int) events) /\
  (forall e,
     Pipeline.extract_behavior_features strip int events = Err e ->
     exists system text,
       Some system ∈ events /\
       Pipeline.EventID system = Some (Some text) /\
       int (strip text) = Err e).
Proof.
  split.
  - rewrite PipelineFacts.extract_shape.
    apply PipelineFacts.event_rows_is_ok.
  - intros e H. unfold Pipeline.extract_behavior_features in H.
    destruct (Pipeline.event_rows strip int events []) as [rows|e'] eqn:Hrows;
      simpl in H.
    + destruct rows; discriminate H.
    + injection H as <-. exact (PipelineFacts.event_rows_Err _ _ _ _ _ Hrows).
Qed.

(** * The evaluation script and the deployed fusion *)

Module EvaluateFacts.
Lemma SFmul_comm (prec emax : Z) (x y : SpecFloat.spec_float) :
  SpecFloat.SFmul prec emax x y = SpecFloat.SFmul prec emax y x.
Proof.
  destruct x as [sx|sx| |sx mx ex], y as [sy|sy| |sy my ey]; simpl;
    rewrite ?(xorb_comm sx sy); try reflexivity.
  rewrite (Pos.mul_comm mx my), (Z.add_comm ex ey). reflexivity.
Qed.

(** The product of two floats does not depend on their order. *)
Lemma mul_comm (x y : float) : (x * y = y * x)%float.
Proof. apply Prim2SF_inj. rewrite !mul_spec. apply SFmul_comm. Qed.

Lemma fused_prob_deployed (s b : float) :
  fuse_probs (Some s) (Some b)
  = Ok (s * Evaluate.STATIC_WEIGHT + b * Evaluate.BEHAVIORAL_WEIGHT)%float.
Proof.
  unfold fuse_probs, FUSION_WEIGHTS, Evaluate.STATIC_WEIGHT,
    Evaluate.BEHAVIORAL_WEIGHT. cbn [fst snd].
  rewrite (mul_comm s), (mul_comm b). reflexivity.
Qed.

Lemma fused_pred_verdict (p : float) :
  let y := if (Evaluate.FUSION_THRESHOLD <=? p)%float then 1 else 0 in
  (y = 1 <-> verdict_of p = "Malicious") /\
  (y = 0 <-> verdict_of p = "Safe").
Proof.
  unfold verdict_of.
  change Evaluate.FUSION_THRESHOLD with FUSION_THRESHOLD.
  destruct (FUSION_THRESHOLD <=? p)%float; cbv zeta;
    (split; split; intros H; reflexivity || discriminate H).
Qed.
End EvaluateFacts.

(** X18: the evaluation script measures the deployed rule: for paired
    static and behavioural probabilities, each fused probability is the
    one [combine_model_outputs] blends from the pair, and the prediction
    is 1 exactly when the application's verdict for that probability is
    Malicious, 0 exactly when it is Safe; one prediction per pair. *)
Theorem evaluation_uses_the_deployed_fusion
  (static_probs behavioral_probs : list float) :
  let fused := Evaluate.fused_probs static_probs behavioral_probs in
  Forall2 (fun pair p => fuse_probs (Some pair.1) (Some pair.2) = Ok p)
          (zip static_probs behavioral_probs) fused /\
  Forall2 (fun p y => (y = 1 <-> verdict_of p = "Malicious") /\
                      (y = 0 <-> verdict_of p = "Safe"))
          fused (Evaluate.fused_preds fused) /\
  length (Evaluate.fused_preds fused)
  = Nat.min (length static_probs) (length behavioral_probs).
Proof.
  cbv zeta. split; [| split].
  - unfold Evaluate.fused_probs.
    revert behavioral_probs.
    induction static_probs as [|s ss IH]; intros [|b bs]; simpl;
      try constructor.
    + apply EvaluateFacts.fused_prob_deployed.
    + apply IH.
  - unfold Evaluate.fused_preds.
    induction (Evaluate.fused_probs static_probs behavioral_probs)
      as [|p ps IH]; simpl; constructor.
    + apply EvaluateFacts.fused_pred_verdict.
    + exact IH.
  - unfold Evaluate.fused_preds, Evaluate.fused_probs.
    rewrite length_fmap, length_zip_with. reflexivity.
Qed.

(** * The sanitiser of the report *)

(** X19: [ascii_safe] keeps the length of a text and every ASCII code
    point in its place, puts a question mark for every other code point,
    so that its result is ASCII only, and sanitising twice changes
    nothing more; no text gives the empty text. *)
Theorem ascii_safe_output (text : list N) :
  let out := Routes.ascii_safe (Some text) in
  Forall (fun c => (c <= 127)%N) out /\
  length out = length text /\
  (forall i c, text !! i = Some c ->
     out !! i = Some (if (c <=? 127)%N then c else 63%N)) /\
  (Forall (fun c => (c <= 127)%N) text <-> out = text) /\
  Routes.ascii_safe (Some out) = out /\
  Routes.ascii_safe None = [].
Proof.
  cbv zeta. unfold Routes.ascii_safe.
  split; [| split; [| split; [| split; [| split]]]].
  - apply Forall_fmap, Forall_forall. intros c _. simpl.
    destruct (N.leb_spec c 127); lia.
  - apply length_fmap.
  - intros i c Hc. rewrite list_lookup_fmap, Hc. reflexivity.
  - induction text as [|c t IH]; simpl; [split; [reflexivity | constructor] |].
    split.
    + intros Hall. inversion Hall as [|? ? Hc Ht]; subst.
      apply N.leb_le in Hc. rewrite Hc. f_equal. apply IH, Ht.
    + intros [= Hc Ht]. constructor; [| apply IH, Ht].
      destruct (N.leb_spec c 127); lia.
  - rewrite <- list_fmap_compose. apply list_fmap_ext. intros i c _. simpl.
    destruct (N.leb_spec c 127) as [Hc | Hc].
    + apply N.leb_le in Hc. rewrite Hc. reflexivity.
    + reflexivity.
  - reflexivity.
Qed.
